(** * download-model.py: the model download and ONNX export script

    A shallow embedding of [main] of [download-model.py].  The script is a
    straight line of calls into the operating system ([Path.mkdir],
    [Path.exists], [Path.glob], [Path.rename], [print]) and into two
    libraries ([ORTModelForFeatureExtraction], [AutoTokenizer]).  The
    embedding is a state-and-exception monad over the one part of the file
    system the script touches, the path [models] of the working directory,
    together with a log of the calls made.  What the libraries and the
    directory scan answer is not decided by the script: it is a parameter
    ([library]) of every definition below. *)

From Stdlib Require Import String Ascii List.
From stdpp Require Import gmap strings list fin_maps.

Local Open Scope string_scope.

(** ** Constants of the script *)

Definition MODEL_NAME : string := "sentence-transformers/all-MiniLM-L6-v2".
Definition OUTPUT_DIR : string := "models".

(** [OUTPUT_DIR / name], as [str] prints it on a POSIX system. *)
Definition joinpath (dir name : string) : string := dir ++ "/" ++ name.

(** ** Shell-style matching, as [Path.glob] applies it to one path component

    [*] matches any run of characters (the empty one and a leading dot
    included), [?] one character, any other character itself; matching is
    case sensitive.  Bracket classes are left out: the pattern of the
    script, [*.onnx], has none. *)

Fixpoint fnmatch (pat name : string) {struct pat} : bool :=
  match pat with
  | EmptyString => match name with EmptyString => true | _ => false end
  | String c pat' =>
      if Ascii.eqb c "*" then
        (fix star (n : string) : bool :=
           fnmatch pat' n ||
           match n with
           | EmptyString => false
           | String _ n' => star n'
           end) name
      else
        match name with
        | EmptyString => false
        | String d name' =>
            (Ascii.eqb c "?" || Ascii.eqb c d) && fnmatch pat' name'
        end
  end.

(** ** The file system under the working directory

    Only the path [models] is modelled.  A directory maps the names of its
    entries to their contents; names are unique, as in a real directory. *)

Definition blob := string.

Inductive node :=
| Absent
| Regular (data : blob)
| Directory (entries : gmap string blob).

Definition is_dir (n : node) : bool :=
  match n with Directory _ => true | _ => false end.

(** The entries of the output directory; none when it is not a directory. *)
Definition listing (n : node) : gmap string blob :=
  match n with Directory d => d | _ => ∅ end.

(** ** Exceptions *)

Inductive exn :=
| FileExistsError (path : string)
| FileNotFoundError (path : string)
| NotADirectoryError (path : string)
| LibraryError (msg : string).

(** ** Calls leaving the script, in the order they are made *)

Inductive call :=
| Print (line : string)
| Mkdir (path : string)
| ModelFromPretrained (name : string) (export : bool)
| TokenizerFromPretrained (name : string)
| ModelSavePretrained (dir : string)
| PathExists (path : string)
| Glob (dir pattern : string)
| Rename (src dst : string)
| TokenizerSavePretrained (dir : string).

(** A log entry: the call and the state of [models] when it was made. *)
Record entry := { what : call; before : node }.

Record world := { models : node; calls : list entry }.

(** ** The monad: state over [world], with exceptions *)

Inductive result (A : Type) :=
| Ok (a : A)
| Raise (e : exn).
Arguments Ok {A} a.
Arguments Raise {A} e.

Definition M (A : Type) : Type := world → result A * world.

Definition ret {A} (a : A) : M A := fun w => (Ok a, w).

Definition bind {A B} (m : M A) (k : A → M B) : M B :=
  fun w =>
    match m w with
    | (Ok a, w') => k a w'
    | (Raise e, w') => (Raise e, w')
    end.

Definition raise {A} (e : exn) : M A := fun w => (Raise e, w).

Declare Scope script_scope.
Delimit Scope script_scope with script.
Notation "x <- c1 ;; c2" := (bind c1 (fun x => c2))
  (at level 100, c1 at next level, right associativity) : script_scope.
Notation "c1 ;; c2" := (bind c1 (fun _ => c2))
  (at level 100, right associativity) : script_scope.
Local Open Scope script_scope.

Definition get_node : M node := fun w => (Ok (models w), w).

Definition put_node (n : node) : M unit :=
  fun w => (Ok tt, {| models := n; calls := calls w |}).

Definition log (c : call) : M unit :=
  fun w =>
    (Ok tt, {| models := models w;
               calls := calls w ++ [{| what := c; before := models w |}] |}).

(** ** Operating-system calls on the output directory *)

Definition print (line : string) : M unit := log (Print line).

(** [OUTPUT_DIR.mkdir(exist_ok=...)]: creates an empty directory when the
    path is free; an existing path raises [FileExistsError] unless
    [exist_ok] is set and the path is a directory. *)
Definition mkdir (exist_ok : bool) : M unit :=
  log (Mkdir OUTPUT_DIR) ;;
  n <- get_node ;;
  match n with
  | Absent => put_node (Directory ∅)
  | Directory _ =>
      if exist_ok then ret tt else raise (FileExistsError OUTPUT_DIR)
  | Regular _ => raise (FileExistsError OUTPUT_DIR)
  end.

(** [(OUTPUT_DIR / name).exists()] *)
Definition path_exists (name : string) : M bool :=
  log (PathExists (joinpath OUTPUT_DIR name)) ;;
  n <- get_node ;;
  ret (bool_decide (is_Some (listing n !! name))).

(** [OUTPUT_DIR.glob(pattern)]: the entries whose name matches, in the
    order the directory scan [scan] lists them. *)
Definition glob (scan : gmap string blob → list string) (pattern : string)
  : M (list string) :=
  log (Glob OUTPUT_DIR pattern) ;;
  n <- get_node ;;
  ret (match n with
       | Directory d => List.filter (fnmatch pattern) (scan d)
       | _ => []
       end).

(** [(OUTPUT_DIR / src).rename(OUTPUT_DIR / dst)]: POSIX [rename], which
    replaces an existing [dst]. *)
Definition rename_entry (src dst : string) (d : gmap string blob)
  : option (gmap string blob) :=
  match d !! src with
  | Some data => Some (<[dst := data]> (delete src d))
  | None => None
  end.

Definition rename (src dst : string) : M unit :=
  log (Rename (joinpath OUTPUT_DIR src) (joinpath OUTPUT_DIR dst)) ;;
  n <- get_node ;;
  match rename_entry src dst (listing n) with
  | Some d' => put_node (Directory d')
  | None => raise (FileNotFoundError (joinpath OUTPUT_DIR src))
  end.

(** ** Library calls

    What a [save_pretrained] does to a directory: it writes files, then
    returns or raises (a failing save may already have written some). *)
Record saved := { written : list (string * blob); failure : option exn }.

(** The answers of the outside world in one run.  The two
    [from_pretrained] calls do not receive the output directory and do not
    touch it. *)
Record library := {
  model : Type;
  tokenizer : Type;
  model_from_pretrained : string → bool → exn + model;
  tokenizer_from_pretrained : string → exn + tokenizer;
  model_save : model → saved;
  tokenizer_save : tokenizer → saved;
  scandir : gmap string blob → list string
}.

(** The directory scan lists exactly the entries of the directory. *)
Definition scandir_ok (L : library) : Prop :=
  ∀ (d : gmap string blob) (n : string), n ∈ scandir L d ↔ is_Some (d !! n).

Definition write_file (d : gmap string blob) (f : string * blob)
  : gmap string blob := <[f.1 := f.2]> d.

Definition write_files (fs : list (string * blob)) (d : gmap string blob)
  : gmap string blob := foldl write_file d fs.

Definition lift_lib {A} (c : call) (r : exn + A) : M A :=
  log c ;;
  match r with
  | inr a => ret a
  | inl e => raise e
  end.

(** [x.save_pretrained(OUTPUT_DIR)]; writing below a path that is not a
    directory fails before anything is written. *)
Definition save_pretrained (c : call) (s : saved) : M unit :=
  log c ;;
  n <- get_node ;;
  match n with
  | Directory d =>
      put_node (Directory (write_files (written s) d)) ;;
      match failure s with
      | Some e => raise e
      | None => ret tt
      end
  | Absent => raise (FileNotFoundError OUTPUT_DIR)
  | Regular _ => raise (NotADirectoryError OUTPUT_DIR)
  end.

(** ** [for ... in ...:] with [break] *)

Inductive flow := Continue | Break.

Fixpoint for_in {A} (xs : list A) (body : A → M flow) : M unit :=
  match xs with
  | [] => ret tt
  | x :: xs' =>
      c <- body x ;;
      match c with
      | Break => ret tt
      | Continue => for_in xs' body
      end
  end.

(** ** The script *)

Definition msg_downloading : string := "Downloading " ++ MODEL_NAME ++ "...".
Definition msg_converting : string := "Converting to ONNX format...".
Definition msg_tokenizer : string := "Downloading tokenizer...".
Definition msg_success : string :=
  String "010" "✅ Model downloaded successfully!".
Definition msg_model : string :=
  "   Model: " ++ joinpath OUTPUT_DIR "model.onnx".
Definition msg_tokenizer_path : string :=
  "   Tokenizer: " ++ joinpath OUTPUT_DIR "tokenizer.json".
Definition msg_cargo : string := String "010" "You can now run: cargo run".

(** Lines 40-45: rename the first [*.onnx] file when [model.onnx] is
    missing. *)
Definition rename_step (L : library) : M unit :=
  let onnx_file := "model.onnx" in
  present <- path_exists onnx_file ;;
  if negb present then
    fs <- glob (scandir L) "*.onnx" ;;
    for_in fs (fun f => rename f onnx_file ;; ret Break)
  else ret tt.

(** [main]; the unused [model_path] of line 35 is left out. *)
Definition main (L : library) : M unit :=
  print msg_downloading ;;
  mkdir true ;;
  print msg_converting ;;
  model <- lift_lib (ModelFromPretrained MODEL_NAME true)
             (model_from_pretrained L MODEL_NAME true) ;;
  print msg_tokenizer ;;
  tokenizer <- lift_lib (TokenizerFromPretrained MODEL_NAME)
                 (tokenizer_from_pretrained L MODEL_NAME) ;;
  save_pretrained (ModelSavePretrained OUTPUT_DIR) (model_save L model) ;;
  rename_step L ;;
  save_pretrained (TokenizerSavePretrained OUTPUT_DIR)
    (tokenizer_save L tokenizer) ;;
  print msg_success ;;
  print msg_model ;;
  print msg_tokenizer_path ;;
  print msg_cargo.

(** A run from a fresh log. *)
Definition start (n : node) : world := {| models := n; calls := [] |}.

Definition run (L : library) (n : node) : result unit * world :=
  main L (start n).

Definition trace (w : world) : list call := map what (calls w).

(** ** A concrete outside world, for running the script *)

Definition listdir (d : gmap string blob) : list string :=
  elements (dom d).

Definition offline (L : library) : library :=
  {| model := model L; tokenizer := tokenizer L;
     model_from_pretrained := fun _ _ => inl (LibraryError "unreachable");
     tokenizer_from_pretrained := tokenizer_from_pretrained L;
     model_save := model_save L; tokenizer_save := tokenizer_save L;
     scandir := scandir L |}.

Definition hub (model_files tokenizer_files : list (string * blob)) : library :=
  {| model := unit; tokenizer := unit;
     model_from_pretrained := fun _ _ => inr tt;
     tokenizer_from_pretrained := fun _ => inr tt;
     model_save := fun _ => {| written := model_files; failure := None |};
     tokenizer_save :=
       fun _ => {| written := tokenizer_files; failure := None |};
     scandir := listdir |}.

Definition tokenizer_files : list (string * blob) :=
  [("tokenizer.json", "{}"); ("vocab.txt", "[PAD]")].

(** ** Vocabulary of the statements *)

Definition mkdir_entry (n : node) : entry :=
  {| what := Mkdir OUTPUT_DIR; before := n |}.

Definition exists_entry (n : node) : entry :=
  {| what := PathExists (joinpath OUTPUT_DIR "model.onnx"); before := n |}.

(** What [mkdir(exist_ok=True)] leaves at the path. *)
Definition after_mkdir (n : node) : node :=
  match n with
  | Absent => Directory ∅
  | _ => n
  end.

(** The [*.onnx] entries of a directory, in scan order. *)
Definition onnx_matches (L : library) (d : gmap string blob) : list string :=
  List.filter (fnmatch "*.onnx") (scandir L d).

Definition is_rename (c : call) : bool :=
  match c with Rename _ _ => true | _ => false end.

(** The calls that write below the output directory. *)
Definition is_write (c : call) : bool :=
  match c with
  | ModelSavePretrained _ | Rename _ _ | TokenizerSavePretrained _ => true
  | _ => false
  end.

(** The four closing [print]s. *)
Definition completion : list call :=
  [Print msg_success; Print msg_model; Print msg_tokenizer_path;
   Print msg_cargo].

(** The calls the rename step makes after [exists()]: none, the [glob]
    alone, or the [glob] and one [rename]. *)
Definition rename_calls (mid : list call) : Prop :=
  mid = [] ∨ mid = [Glob OUTPUT_DIR "*.onnx"]
  ∨ ∃ f : string,
      mid = [Glob OUTPUT_DIR "*.onnx";
             Rename (joinpath OUTPUT_DIR f) (joinpath OUTPUT_DIR "model.onnx")].

(** The calls of a complete run, in order. *)
Definition script_order (mid : list call) : list call :=
  ([Print msg_downloading; Mkdir OUTPUT_DIR;
    Print msg_converting; ModelFromPretrained MODEL_NAME true;
    Print msg_tokenizer; TokenizerFromPretrained MODEL_NAME;
    ModelSavePretrained OUTPUT_DIR;
    PathExists (joinpath OUTPUT_DIR "model.onnx")]
   ++ mid ++ TokenizerSavePretrained OUTPUT_DIR :: completion)%list.

(** What [glob("*.onnx")] answers in the state [n] of [models]. *)
Definition glob_onnx (L : library) (n : node) : list string :=
  match n with
  | Directory d => onnx_matches L d
  | _ => []
  end.

Definition at_node (n : node) (c : call) : entry :=
  {| what := c; before := n |}.

(** The world after logging the call [c]. *)
Definition push (c : call) (w : world) : world :=
  {| models := models w; calls := calls w ++ [at_node (models w) c] |}.

(** The ways the rename step can go from the state [n] of [models]: its
    answer, the state it leaves, and the calls it makes after [exists()]. *)
Inductive rename_outcome (L : library) (n : node)
  : result unit → node → list call → Prop :=
| already_named :
    is_Some (listing n !! "model.onnx") →
    rename_outcome L n (Ok tt) n []
| no_match :
    listing n !! "model.onnx" = None →
    glob_onnx L n = [] →
    rename_outcome L n (Ok tt) n [Glob OUTPUT_DIR "*.onnx"]
| first_renamed (f : string) (rest : list string) (data : blob) :
    listing n !! "model.onnx" = None →
    glob_onnx L n = f :: rest →
    listing n !! f = Some data →
    rename_outcome L n (Ok tt)
      (Directory (<["model.onnx" := data]> (delete f (listing n))))
      [Glob OUTPUT_DIR "*.onnx";
       Rename (joinpath OUTPUT_DIR f) (joinpath OUTPUT_DIR "model.onnx")]
| first_vanished (f : string) (rest : list string) :
    listing n !! "model.onnx" = None →
    glob_onnx L n = f :: rest →
    listing n !! f = None →
    rename_outcome L n (Raise (FileNotFoundError (joinpath OUTPUT_DIR f))) n
      [Glob OUTPUT_DIR "*.onnx";
       Rename (joinpath OUTPUT_DIR f) (joinpath OUTPUT_DIR "model.onnx")].

(** The log of a run up to and including each of its first steps, from the
    initial state [n] of [models]. *)
Definition log_mkdir (n : node) : list entry :=
  map (at_node n) [Print msg_downloading; Mkdir OUTPUT_DIR].

Definition log_export (n : node) : list entry :=
  (log_mkdir n ++
   map (at_node (after_mkdir n))
     [Print msg_converting; ModelFromPretrained MODEL_NAME true])%list.

Definition log_tokenizer (n : node) : list entry :=
  (log_export n ++
   map (at_node (after_mkdir n))
     [Print msg_tokenizer; TokenizerFromPretrained MODEL_NAME])%list.

Definition log_model_save (n : node) : list entry :=
  (log_tokenizer n ++
   [at_node (after_mkdir n) (ModelSavePretrained OUTPUT_DIR)])%list.

Definition log_rename (n after : node) (cs : list call) : list entry :=
  (log_model_save n ++
   map (at_node after)
     (PathExists (joinpath OUTPUT_DIR "model.onnx") :: cs))%list.

(** The state of [models] after a save of [s] into the state [n]. *)
Definition save_into (s : saved) (n : node) : node :=
  Directory (write_files (written s) (listing n)).

Definition is_regular (n : node) : bool :=
  match n with Regular _ => true | _ => false end.

(** The ways a run can go from the initial state [n] of [models], one per
    place where [main] can stop: its answer, the final state of [models]
    and the log. *)
Inductive run_outcome (L : library) (n : node)
  : result unit → node → list entry → Prop :=
| stops_at_mkdir :
    is_regular n = true →
    run_outcome L n (Raise (FileExistsError OUTPUT_DIR)) n (log_mkdir n)
| stops_at_export (e : exn) :
    is_regular n = false →
    model_from_pretrained L MODEL_NAME true = inl e →
    run_outcome L n (Raise e) (after_mkdir n) (log_export n)
| stops_at_tokenizer (m : model L) (e : exn) :
    is_regular n = false →
    model_from_pretrained L MODEL_NAME true = inr m →
    tokenizer_from_pretrained L MODEL_NAME = inl e →
    run_outcome L n (Raise e) (after_mkdir n) (log_tokenizer n)
| stops_at_model_save (m : model L) (t : tokenizer L) (e : exn) :
    is_regular n = false →
    model_from_pretrained L MODEL_NAME true = inr m →
    tokenizer_from_pretrained L MODEL_NAME = inr t →
    failure (model_save L m) = Some e →
    run_outcome L n (Raise e)
      (save_into (model_save L m) (after_mkdir n)) (log_model_save n)
| stops_at_rename (m : model L) (t : tokenizer L) (e : exn)
    (n' : node) (cs : list call) :
    is_regular n = false →
    model_from_pretrained L MODEL_NAME true = inr m →
    tokenizer_from_pretrained L MODEL_NAME = inr t →
    failure (model_save L m) = None →
    rename_outcome L (save_into (model_save L m) (after_mkdir n))
      (Raise e) n' cs →
    run_outcome L n (Raise e) n'
      (log_rename n (save_into (model_save L m) (after_mkdir n)) cs)
| stops_at_tokenizer_save (m : model L) (t : tokenizer L) (e : exn)
    (n' : node) (cs : list call) :
    is_regular n = false →
    model_from_pretrained L MODEL_NAME true = inr m →
    tokenizer_from_pretrained L MODEL_NAME = inr t →
    failure (model_save L m) = None →
    rename_outcome L (save_into (model_save L m) (after_mkdir n))
      (Ok tt) n' cs →
    failure (tokenizer_save L t) = Some e →
    run_outcome L n (Raise e) (save_into (tokenizer_save L t) n')
      (log_rename n (save_into (model_save L m) (after_mkdir n)) cs ++
       [at_node n' (TokenizerSavePretrained OUTPUT_DIR)])%list
| completes (m : model L) (t : tokenizer L) (n' : node) (cs : list call) :
    is_regular n = false →
    model_from_pretrained L MODEL_NAME true = inr m →
    tokenizer_from_pretrained L MODEL_NAME = inr t →
    failure (model_save L m) = None →
    rename_outcome L (save_into (model_save L m) (after_mkdir n))
      (Ok tt) n' cs →
    failure (tokenizer_save L t) = None →
    run_outcome L n (Ok tt) (save_into (tokenizer_save L t) n')
      (log_rename n (save_into (model_save L m) (after_mkdir n)) cs ++
       at_node n' (TokenizerSavePretrained OUTPUT_DIR) ::
       map (at_node (save_into (tokenizer_save L t) n')) completion)%list.

#[global] Instance call_eq_dec : EqDecision call.
Proof. solve_decision. Defined.

(** A log in which every write call was made on an existing directory and
    after a [mkdir] ([made] tells whether one precedes the log). *)
Fixpoint writes_guarded (made : bool) (l : list entry) : bool :=
  match l with
  | [] => true
  | e :: l' =>
      (negb (is_write (what e)) || (made && is_dir (before e)))
      && writes_guarded (made || bool_decide (what e = Mkdir OUTPUT_DIR)) l'
  end.

(** The first library call to fail, in the order [main] makes them, and
    the exception it raises. *)
Inductive first_failure (L : library) : call → exn → Prop :=
| export_fails (e : exn) :
    model_from_pretrained L MODEL_NAME true = inl e →
    first_failure L (ModelFromPretrained MODEL_NAME true) e
| tokenizer_fails (m : model L) (e : exn) :
    model_from_pretrained L MODEL_NAME true = inr m →
    tokenizer_from_pretrained L MODEL_NAME = inl e →
    first_failure L (TokenizerFromPretrained MODEL_NAME) e
| model_save_fails (m : model L) (t : tokenizer L) (e : exn) :
    model_from_pretrained L MODEL_NAME true = inr m →
    tokenizer_from_pretrained L MODEL_NAME = inr t →
    failure (model_save L m) = Some e →
    first_failure L (ModelSavePretrained OUTPUT_DIR) e
| tokenizer_save_fails (m : model L) (t : tokenizer L) (e : exn) :
    model_from_pretrained L MODEL_NAME true = inr m →
    tokenizer_from_pretrained L MODEL_NAME = inr t →
    failure (model_save L m) = None →
    failure (tokenizer_save L t) = Some e →
    first_failure L (TokenizerSavePretrained OUTPUT_DIR) e.

(** The names in a directory that [*.onnx] matches. *)
Definition onnx_names (d : gmap string blob) : list string :=
  List.filter (fnmatch "*.onnx") (elements (dom d)).

(** "Exactly one model artifact": [model.onnx] is in the directory and no
    other entry is an [*.onnx] file. *)
Definition only_model_onnx (d : gmap string blob) : Prop :=
  is_Some (d !! "model.onnx")
  ∧ ∀ name : string,
      fnmatch "*.onnx" name = true → is_Some (d !! name) → name = "model.onnx".

(** Three runs of the script: the export is stored under the expected
    name; it is stored as two [*.onnx] files; it is stored without any. *)
Definition hub_named : library :=
  hub [("config.json", "{}"); ("model.onnx", "ONNX")] tokenizer_files.

Definition hub_split : library :=
  hub [("a.onnx", "A"); ("b.onnx", "B")] tokenizer_files.

Definition hub_no_onnx : library :=
  hub [("model.safetensors", "W")] tokenizer_files.

(** Two states of [models] at the rename step: the export sits under
    another name; it sits under the expected one. *)
Definition dir_misnamed : node :=
  Directory (<["exported.onnx" := "ONNX"]> (<["config.json" := "{}"]> ∅)).

Definition dir_named : node :=
  Directory (<["model.onnx" := "ONNX"]> (<["config.json" := "{}"]> ∅)).

(** The lines a run printed, in order. *)
Definition printed (c : call) : option string :=
  match c with Print line => Some line | _ => None end.

Definition stdout (w : world) : list string := omap printed (trace w).

(** The seven lines of the script. *)
Definition script_lines : list string :=
  [msg_downloading; msg_converting; msg_tokenizer;
   msg_success; msg_model; msg_tokenizer_path; msg_cargo].

(** Further outside worlds: the export is stored under another name; the
    tokenizer cannot be downloaded; the tokenizer save fails after its first
    file. *)
Definition hub_renamed : library :=
  hub [("config.json", "{}"); ("exported.onnx", "NEW")] tokenizer_files.

Definition no_tokenizer (L : library) : library :=
  {| model := model L; tokenizer := tokenizer L;
     model_from_pretrained := model_from_pretrained L;
     tokenizer_from_pretrained := fun _ => inl (LibraryError "unreachable");
     model_save := model_save L; tokenizer_save := tokenizer_save L;
     scandir := scandir L |}.

Definition disk_full (L : library) : library :=
  {| model := model L; tokenizer := tokenizer L;
     model_from_pretrained := model_from_pretrained L;
     tokenizer_from_pretrained := tokenizer_from_pretrained L;
     model_save := model_save L;
     tokenizer_save :=
       fun t => {| written := take 1 (written (tokenizer_save L t));
                   failure := Some (LibraryError "no space left") |};
     scandir := scandir L |}.

(** An output directory left by an earlier run. *)
Definition dir_stale : node :=
  Directory (<["model.onnx" := "OLD"]> (<["notes.txt" := "keep"]> ∅)).

(** ** The script as a list of steps

    The calls of the script in the order the script makes them, each with
    the answer of the outside world to it: [true] when the call returns,
    [false] when it raises.  The list ends at a [from_pretrained] that
    raises, since the later steps need the handle it did not give. *)

Definition returns {A} (r : exn + A) : bool :=
  match r with inr _ => true | inl _ => false end.

Definition saves (s : saved) : bool :=
  match failure s with None => true | Some _ => false end.

Definition always (cs : list call) : list (call * bool) :=
  map (λ c, (c, true)) cs.

(** The steps of lines 41-45 after the [exists()] test, in the state [n] of
    [models]: nothing when [model.onnx] is there; otherwise the [glob], and
    the [rename] of its first match when it has one. *)
Definition rename_steps (L : library) (n : node) : list (call * bool) :=
  if bool_decide (is_Some (listing n !! "model.onnx")) then []
  else
    (Glob OUTPUT_DIR "*.onnx", true) ::
    match glob_onnx L n with
    | [] => []
    | f :: _ =>
        [(Rename (joinpath OUTPUT_DIR f) (joinpath OUTPUT_DIR "model.onnx"),
          bool_decide (is_Some (listing n !! f)))]
    end.

Definition script_steps (L : library) (n : node) : list (call * bool) :=
  (Print msg_downloading, true) ::
  (Mkdir OUTPUT_DIR, negb (is_regular n)) ::
  (Print msg_converting, true) ::
  match model_from_pretrained L MODEL_NAME true with
  | inl _ => [(ModelFromPretrained MODEL_NAME true, false)]
  | inr m =>
      (ModelFromPretrained MODEL_NAME true, true) ::
      (Print msg_tokenizer, true) ::
      match tokenizer_from_pretrained L MODEL_NAME with
      | inl _ => [(TokenizerFromPretrained MODEL_NAME, false)]
      | inr t =>
          let after_save := save_into (model_save L m) (after_mkdir n) in
          ((TokenizerFromPretrained MODEL_NAME, true) ::
           (ModelSavePretrained OUTPUT_DIR, saves (model_save L m)) ::
           (PathExists (joinpath OUTPUT_DIR "model.onnx"), true) ::
           rename_steps L after_save ++
           (TokenizerSavePretrained OUTPUT_DIR, saves (tokenizer_save L t)) ::
           always completion)%list
      end
  end.

(** The calls made when the steps are taken in order until one raises. *)
Fixpoint until_failure (steps : list (call * bool)) : list call :=
  match steps with
  | [] => []
  | (c, returned) :: rest =>
      c :: if returned then until_failure rest else []
  end.

(** * Properties *)

Local Open Scope list_scope.

(** ** The matcher on the pattern of the script *)

Lemma fnmatch_literal (c : ascii) (pat name : string) :
  Ascii.eqb c "*" = false → Ascii.eqb c "?" = false →
  fnmatch (String c pat) name =
  match name with
  | EmptyString => false
  | String d name' => Ascii.eqb c d && fnmatch pat name'
  end.
Proof.
  intros Hstar Hquery. cbn [fnmatch]. rewrite Hstar.
  destruct name; [reflexivity |]. by rewrite Hquery.
Qed.

Lemma fnmatch_literal_onnx (name : string) :
  fnmatch ".onnx" name = true ↔ name = ".onnx".
Proof.
  split; [| intros ->; reflexivity].
  intros H.
  do 5 (rewrite fnmatch_literal in H by reflexivity;
        destruct name as [| ? name]; [discriminate H |];
        apply andb_prop in H as [E H];
        apply Ascii.eqb_eq in E; rewrite <- E; clear E).
  destruct name; [reflexivity | discriminate H].
Qed.

Lemma fnmatch_star_onnx (name : string) :
  fnmatch "*.onnx" name = true ↔ ∃ stem, name = stem +:+ ".onnx".
Proof.
  change (fnmatch "*.onnx" name) with
    ((fix star (n : string) : bool :=
        fnmatch ".onnx" n ||
        match n with EmptyString => false | String _ n' => star n' end) name).
  induction name as [| c name IH].
  - split; [discriminate |].
    intros [[| ? ?] H]; discriminate.
  - rewrite orb_true_iff, fnmatch_literal_onnx, IH. split.
    + intros [-> | [stem ->]]; [by exists "" | by exists (String c stem)].
    + intros [[| c' stem] H]; [by left |].
      right. exists stem. by injection H.
Qed.

(** The matcher is not unfolded while stepping through the script. *)
Arguments fnmatch : simpl never.

(** ** Stepping through the monad *)

Ltac unfold_script :=
  unfold run, main, rename_step, save_pretrained, lift_lib, mkdir,
    path_exists, glob, rename, print, log, get_node, put_node, bind, ret,
    raise, start, trace.

Ltac exec := repeat (progress (unfold_script; cbn)).


(** C10: when [models] is a regular file, [mkdir(exist_ok=True)] raises
    [FileExistsError] and the run ends there: the file is left as it was and
    the only calls made are the first [print] and the [mkdir] itself, so
    nothing was downloaded and nothing written. *)
Theorem regular_file_stops_at_mkdir (L : library) (data : blob) :
  run L (Regular data) =
    (Raise (FileExistsError OUTPUT_DIR),
     {| models := Regular data;
        calls := [ {| what := Print msg_downloading; before := Regular data |};
                   mkdir_entry (Regular data) ] |})
  ∧ mkdir true (start (Regular data)) =
      (Raise (FileExistsError OUTPUT_DIR),
       {| models := Regular data; calls := [mkdir_entry (Regular data)] |}).
Proof. split; reflexivity. Qed.

(** ** The rename step (lines 40-45) *)

Lemma onnx_matches_elem (L : library) (d : gmap string blob) (f : string) :
  scandir_ok L →
  f ∈ onnx_matches L d ↔ fnmatch "*.onnx" f = true ∧ is_Some (d !! f).
Proof.
  intros Hscan. unfold onnx_matches.
  rewrite list_elem_of_In, filter_In, <- list_elem_of_In, (Hscan d f).
  tauto.
Qed.

Lemma listing_is_Some (n : node) (k : string) :
  is_Some (listing n !! k) → n = Directory (listing n).
Proof.
  destruct n; cbn; [| | done]; rewrite lookup_empty; by intros [? ?].
Qed.

(** C1: when, at the rename step, [model.onnx] is missing from the output
    directory and the directory holds some file [stem.onnx], the step
    returns normally and [model.onnx] is in the directory afterwards. *)
Theorem rename_step_produces_model_onnx
    (L : library) (w : world) (stem : string) :
  scandir_ok L →
  listing (models w) !! "model.onnx" = None →
  is_Some (listing (models w) !! (stem +:+ ".onnx")) →
  (rename_step L w).1 = Ok tt
  ∧ is_Some (listing (models (rename_step L w).2) !! "model.onnx").
Proof.
  intros Hscan Hmissing Hfile.
  destruct w as [n l]; cbn in *.
  rewrite (listing_is_Some _ _ Hfile) in *; cbn in *.
  set (d := listing n) in *.
  assert (Hin : stem +:+ ".onnx" ∈ onnx_matches L d).
  { apply onnx_matches_elem; [done |]. split; [| done].
    apply fnmatch_star_onnx. by exists stem. }
  exec. rewrite bool_decide_eq_false_2 by (rewrite Hmissing; by intros [? ?]).
  cbn. fold (onnx_matches L d).
  destruct (onnx_matches L d) as [| f rest] eqn:Hglob.
  { by apply not_elem_of_nil in Hin. }
  assert (Hf : is_Some (d !! f)).
  { eapply onnx_matches_elem; [done |]. rewrite Hglob. left. }
  destruct Hf as [data Hf]. exec. unfold rename_entry. rewrite Hf. cbn.
  split; [done |]. rewrite lookup_insert_eq. by eexists.
Qed.

Ltac log_tail :=
  eexists; split; [rewrite <- ?app_assoc; reflexivity | cbn; lia].

(** C5: when [model.onnx] is already in the output directory the rename
    step only asks [exists()] and changes nothing; in every case the step
    issues at most one [rename], every entry other than [model.onnx] and the
    first [*.onnx] match keeps its name and content, and when a rename
    happens it moves exactly that first match to [model.onnx]. *)
Theorem rename_step_frame (L : library) (w : world) :
  let r := rename_step L w in
  let d := listing (models w) in
  (is_Some (d !! "model.onnx") →
     r = (Ok tt, {| models := models w;
                    calls := calls w ++ [exists_entry (models w)] |}))
  ∧ (∃ new : list entry,
       calls r.2 = calls w ++ new
       ∧ (length (List.filter is_rename (map what new)) ≤ 1)%nat)
  ∧ (∀ name : string,
       name ≠ "model.onnx" →
       head (onnx_matches L d) ≠ Some name →
       listing (models r.2) !! name = d !! name)
  ∧ (models r.2 = models w
     ∨ ∃ (f : string) (data : blob),
         d !! "model.onnx" = None
         ∧ head (onnx_matches L d) = Some f
         ∧ d !! f = Some data
         ∧ listing (models r.2) = <["model.onnx" := data]> (delete f d)).
Proof.
  destruct w as [n l]. cbn zeta. cbn [models calls].
  set (d := listing n).
  destruct (decide (is_Some (d !! "model.onnx"))) as [Hpresent | Hmissing].
  - assert (Hr : rename_step L {| models := n; calls := l |} =
                 (Ok tt, {| models := n; calls := l ++ [exists_entry n] |})).
    { exec. fold d. by rewrite bool_decide_eq_true_2. }
    rewrite Hr. cbn. split; [done |]. split; [| split; [done | by left]].
    exists [exists_entry n]. split; [done |]. cbn. lia.
  - split; [done |].
    rewrite <- eq_None_not_Some in Hmissing.
    unfold onnx_matches. exec. fold d.
    rewrite bool_decide_eq_false_2 by (rewrite Hmissing; by intros [? ?]).
    cbn. destruct n as [| data0 | d0]; cbn.
    1, 2: split; [log_tail | split; [done | by left]].
    subst d. cbn [listing] in *.
    destruct (List.filter (fnmatch "*.onnx") (scandir L d0)) as [| f rest];
      exec.
    { split; [log_tail | split; [done | by left]]. }
    unfold rename_entry. destruct (d0 !! f) as [data |] eqn:Hf; cbn.
    + split; [log_tail |]. split.
      * intros name Hname Hhead.
        rewrite lookup_insert_ne by done.
        rewrite lookup_delete_ne by congruence. done.
      * right. by exists f, data.
    + split; [log_tail | split; [done | by left]].
Qed.

Lemma rename_step_outcome (L : library) (w : world) :
  ∃ (r : result unit) (n' : node) (cs : list call),
    rename_outcome L (models w) r n' cs
    ∧ rename_step L w =
        (r, {| models := n';
               calls := calls w ++
                        map (at_node (models w))
                          (PathExists (joinpath OUTPUT_DIR "model.onnx") :: cs)
            |}).
Proof.
  destruct w as [n l]. cbn [models calls].
  destruct (decide (is_Some (listing n !! "model.onnx"))) as [Hyes | Hno].
  { exists (Ok tt), n, []. split; [by constructor |].
    exec. by rewrite bool_decide_eq_true_2. }
  assert (Hnone := Hno). rewrite <- eq_None_not_Some in Hnone.
  assert (Hstep : rename_step L {| models := n; calls := l |} =
    for_in (glob_onnx L n) (fun f => rename f "model.onnx" ;; ret Break)
      {| models := n;
         calls := l ++ map (at_node n)
                         [PathExists (joinpath OUTPUT_DIR "model.onnx");
                          Glob OUTPUT_DIR "*.onnx"] |}).
  { unfold rename_step, path_exists, glob, log, get_node, bind, ret. cbn.
    rewrite bool_decide_eq_false_2 by done. cbn.
    rewrite <- app_assoc. by destruct n. }
  rewrite Hstep. clear Hstep.
  destruct (glob_onnx L n) as [| f rest] eqn:Hglob.
  { exists (Ok tt), n, [Glob OUTPUT_DIR "*.onnx"].
    split; [by constructor |]. reflexivity. }
  destruct (listing n !! f) as [data |] eqn:Hf.
  - eexists (Ok tt), _, _. split; [by eapply first_renamed |].
    exec. unfold rename_entry. rewrite Hf. cbn. by rewrite <- app_assoc.
  - eexists (Raise _), _, _. split; [by eapply first_vanished |].
    exec. unfold rename_entry. rewrite Hf. cbn. by rewrite <- app_assoc.
Qed.

(** ** Whole runs *)

Lemma rename_outcome_dir (L : library) (n n' : node) (r : result unit)
    (cs : list call) :
  rename_outcome L n r n' cs → is_dir n = true → is_dir n' = true.
Proof. by destruct 1. Qed.

Lemma bind_log {B} (c : call) (k : unit → M B) (w : world) :
  bind (log c) k w = k tt (push c w).
Proof. reflexivity. Qed.

Lemma bind_lift_lib {A B} (c : call) (r : exn + A) (k : A → M B)
    (w : world) :
  bind (lift_lib c r) k w =
  match r with
  | inr a => k a (push c w)
  | inl e => (Raise e, push c w)
  end.
Proof. by destruct r. Qed.

Lemma bind_mkdir {B} (k : unit → M B) (n : node) (l : list entry) :
  is_regular n = false →
  bind (mkdir true) k {| models := n; calls := l |} =
  k tt {| models := after_mkdir n;
          calls := l ++ [at_node n (Mkdir OUTPUT_DIR)] |}.
Proof. by destruct n. Qed.

Lemma bind_save_pretrained {B} (c : call) (s : saved) (k : unit → M B)
    (n : node) (l : list entry) :
  is_dir n = true →
  bind (save_pretrained c s) k {| models := n; calls := l |} =
  let w' := {| models := save_into s n; calls := l ++ [at_node n c] |} in
  match failure s with
  | Some e => (Raise e, w')
  | None => k tt w'
  end.
Proof. destruct n; try done. intros _. exec. by destruct (failure s). Qed.

Lemma after_mkdir_dir (n : node) :
  is_regular n = false → is_dir (after_mkdir n) = true.
Proof. by destruct n. Qed.

(** Every run goes one of the ways of [run_outcome]. *)
Lemma run_spec (L : library) (n : node) :
  ∃ (r : result unit) (n' : node) (l : list entry),
    run_outcome L n r n' l ∧ run L n = (r, {| models := n'; calls := l |}).
Proof.
  destruct (is_regular n) eqn:Hreg.
  { eexists _, _, _. split; [by apply stops_at_mkdir |]. by destruct n. }
  unfold run, main, print, start.
  rewrite bind_log. unfold push; cbn [models calls app].
  rewrite bind_mkdir by done. rewrite bind_log. unfold push; cbn [models calls].
  rewrite bind_lift_lib.
  destruct (model_from_pretrained L MODEL_NAME true) as [e | m] eqn:Hm.
  { eexists _, _, _. split; [by eapply stops_at_export |].
    unfold push; cbn [models calls]. by rewrite <- app_assoc. }
  unfold push; cbn [models calls]. rewrite bind_log.
  unfold push; cbn [models calls]. rewrite bind_lift_lib.
  destruct (tokenizer_from_pretrained L MODEL_NAME) as [e | t] eqn:Ht.
  { eexists _, _, _. split; [by eapply stops_at_tokenizer |].
    unfold push; cbn [models calls]. by rewrite <- !app_assoc. }
  unfold push; cbn [models calls].
  rewrite bind_save_pretrained by by apply after_mkdir_dir.
  cbn zeta.
  assert (Hlog : (((([at_node n (Print msg_downloading)] ++
                     [at_node n (Mkdir OUTPUT_DIR)]) ++
                    [at_node (after_mkdir n) (Print msg_converting)]) ++
                   [at_node (after_mkdir n)
                      (ModelFromPretrained MODEL_NAME true)]) ++
                  [at_node (after_mkdir n) (Print msg_tokenizer)]) ++
                 [at_node (after_mkdir n) (TokenizerFromPretrained MODEL_NAME)]
                 = log_tokenizer n) by reflexivity.
  rewrite Hlog. clear Hlog. fold (log_model_save n).
  destruct (failure (model_save L m)) as [e |] eqn:Hsave.
  { eexists _, _, _. split; [by eapply stops_at_model_save |]. done. }
  set (n2 := save_into (model_save L m) (after_mkdir n)).
  unfold bind at 1.
  destruct (rename_step_outcome L {| models := n2; calls := log_model_save n |})
    as (r & n3 & cs & Hout & ->).
  cbn [models calls]. fold (log_rename n n2 cs).
  destruct r as [[] | e].
  2: { eexists _, _, _. split; [by eapply stops_at_rename |]. done. }
  rewrite bind_save_pretrained by by eapply rename_outcome_dir.
  cbn zeta.
  destruct (failure (tokenizer_save L t)) as [e |] eqn:Htsave.
  { eexists _, _, _. split; [by eapply stops_at_tokenizer_save |]. done. }
  eexists _, _, _. split; [by eapply completes |].
  rewrite !bind_log. unfold log, push. cbn [models calls].
  by rewrite <- !app_assoc.
Qed.

Lemma what_at_node (n : node) (cs : list call) :
  map what (map (at_node n) cs) = cs.
Proof. induction cs as [| c cs IH]; [done |]. cbn. by rewrite IH. Qed.

Lemma rename_outcome_calls (L : library) (n n' : node) (r : result unit)
    (cs : list call) :
  rename_outcome L n r n' cs → rename_calls cs.
Proof.
  destruct 1; [by left | right; by left | right; right; by eexists ..].
Qed.

(** The log of a run against the order of the script. *)
Lemma run_trace_order (L : library) (n : node) :
  ∃ mid : list call,
    rename_calls mid
    ∧ match (run L n).1 with
      | Ok _ => trace (run L n).2 = script_order mid
      | Raise _ =>
          ∃ rest : list call,
            rest ≠ [] ∧ script_order mid = trace (run L n).2 ++ rest
      end.
Proof.
  destruct (run_spec L n) as (r & n' & l & Hout & ->).
  unfold trace, script_order. cbn [fst snd calls].
  destruct Hout as [ | | | | ? ? ? ? cs ? ? ? ? Hren
                     | ? ? ? ? cs ? ? ? ? Hren | ? ? ? cs ? ? ? ? Hren ].
  1-4: exists []; split; [by left |]; eexists; split; [| reflexivity]; done.
  all: exists cs; split; [by eapply rename_outcome_calls |].
  all: unfold log_rename; rewrite ?map_app, ?what_at_node.
  - eexists. split; [| cbn; rewrite <- ?app_assoc; reflexivity]. done.
  - eexists. split; [| cbn; rewrite <- ?app_assoc; reflexivity]. done.
  - cbn. by rewrite <- ?app_assoc.
Qed.

Lemma rename_outcome_steps (L : library) (n n' : node) (r : result unit)
    (cs : list call) (rest : list (call * bool)) :
  rename_outcome L n r n' cs →
  until_failure (rename_steps L n ++ rest) =
    cs ++ match r with Ok _ => until_failure rest | Raise _ => [] end
  ∧ forallb snd (rename_steps L n) =
      match r with Ok _ => true | Raise _ => false end.
Proof.
  unfold rename_steps.
  destruct 1 as [ Hyes | Hno Hglob | f0 others data Hno Hglob Hf
                | f0 others Hno Hglob Hf ].
  - by rewrite bool_decide_eq_true_2.
  - rewrite bool_decide_eq_false_2 by (rewrite Hno; by intros [? ?]).
    by rewrite Hglob.
  - rewrite bool_decide_eq_false_2 by (rewrite Hno; by intros [? ?]).
    rewrite Hglob. by rewrite bool_decide_eq_true_2 by by eexists.
  - rewrite bool_decide_eq_false_2 by (rewrite Hno; by intros [? ?]).
    rewrite Hglob.
    by rewrite bool_decide_eq_false_2 by (rewrite Hf; by intros [? ?]).
Qed.

Lemma forallb_snd_always (cs : list call) : forallb snd (always cs) = true.
Proof. induction cs as [| c cs IH]; [done |]. exact IH. Qed.

Lemma until_failure_always (cs : list call) : until_failure (always cs) = cs.
Proof. induction cs as [| c cs IH]; [done |]. cbn. f_equal. exact IH. Qed.

(** The log and the answer of a run against the steps of the script. *)
Lemma run_script_steps (L : library) (n : node) :
  trace (run L n).2 = until_failure (script_steps L n)
  ∧ ((run L n).1 = Ok tt ↔ forallb snd (script_steps L n) = true).
Proof.
  destruct (run_spec L n) as (r & n' & l & Hout & ->).
  unfold trace, script_steps. cbn [fst snd calls].
  destruct Hout as [ Hreg | e Hreg Hm | m e Hreg Hm Ht
                   | m t e Hreg Hm Ht Hsave
                   | m t e n3 cs Hreg Hm Ht Hsave Hren
                   | m t e n3 cs Hreg Hm Ht Hsave Hren Htsave
                   | m t n3 cs Hreg Hm Ht Hsave Hren Htsave ];
    rewrite Hreg.
  - split; [reflexivity | by split].
  - rewrite Hm. split; [reflexivity | by split].
  - rewrite Hm, Ht. split; [reflexivity | by split].
  - rewrite Hm, Ht. unfold saves. rewrite Hsave.
    split; [reflexivity | by split].
  - rewrite Hm, Ht. unfold saves at 1 3. rewrite Hsave. cbn zeta.
    destruct (rename_outcome_steps _ _ _ _ _
                ((TokenizerSavePretrained OUTPUT_DIR,
                  saves (tokenizer_save L t)) :: always completion) Hren)
      as [Hcalls Hall].
    cbn [until_failure negb forallb snd andb].
    rewrite forallb_app, Hall, Hcalls. cbn [andb app].
    unfold log_rename. rewrite map_app, what_at_node, app_nil_r.
    split; [reflexivity | by split].
  - rewrite Hm, Ht. unfold saves. rewrite Hsave, Htsave. cbn zeta.
    destruct (rename_outcome_steps _ _ _ _ _
                ((TokenizerSavePretrained OUTPUT_DIR, false)
                 :: always completion) Hren)
      as [Hcalls Hall].
    cbn [until_failure negb forallb snd andb].
    rewrite forallb_app, Hall, Hcalls. cbn [andb forallb snd until_failure].
    unfold log_rename. rewrite !map_app, what_at_node.
    split; [by rewrite <- app_assoc | by split].
  - rewrite Hm, Ht. unfold saves. rewrite Hsave, Htsave. cbn zeta.
    destruct (rename_outcome_steps _ _ _ _ _
                ((TokenizerSavePretrained OUTPUT_DIR, true)
                 :: always completion) Hren)
      as [Hcalls Hall].
    cbn [until_failure negb forallb snd andb].
    rewrite forallb_app, Hall, Hcalls.
    cbn [andb forallb snd until_failure].
    rewrite forallb_snd_always, until_failure_always.
    unfold log_rename. rewrite !map_app. cbn [map]. rewrite !what_at_node.
    split; [by rewrite <- app_assoc | by split].
Qed.

(** C7: the calls of every run are exactly the steps of the script taken in
    order (the first [print], [mkdir], a [print], the model export, a
    [print], the tokenizer download, the model save, the [exists()] test
    with the [glob] and the [rename] the state calls for, the tokenizer
    save and the four closing [print]s) up to and including the first step
    that raises, or all of them when none does; the run returns exactly
    when no step raises.  So a run that returns made the whole sequence,
    and a run that raises made a proper initial part of it. *)
Theorem main_call_order (L : library) (n : node) :
  trace (run L n).2 = until_failure (script_steps L n)
  ∧ ((run L n).1 = Ok tt ↔ forallb snd (script_steps L n) = true)
  ∧ ∃ mid : list call,
      rename_calls mid
      ∧ match (run L n).1 with
        | Ok _ => trace (run L n).2 = script_order mid
        | Raise _ =>
            ∃ rest : list call,
              rest ≠ [] ∧ script_order mid = trace (run L n).2 ++ rest
        end.
Proof.
  destruct (run_script_steps L n) as [Hcalls Hok].
  split; [exact Hcalls |]. split; [exact Hok |].
  exact (run_trace_order L n).
Qed.

(** C3: when the model export raises, the run raises (the export's
    exception, or [FileExistsError] when [mkdir] already failed), no save
    and no rename was called, and [models] is what [mkdir] left: its
    entries are those it had before the run. *)
Theorem export_failure_writes_nothing (L : library) (n : node) (e : exn) :
  model_from_pretrained L MODEL_NAME true = inl e →
  (run L n).1 =
    Raise (if is_regular n then FileExistsError OUTPUT_DIR else e)
  ∧ models (run L n).2 = after_mkdir n
  ∧ listing (models (run L n).2) = listing n
  ∧ Forall (λ c, is_write c = false) (trace (run L n).2).
Proof.
  intros He.
  destruct (run_spec L n) as (r & n' & l & Hout & ->).
  unfold trace. cbn [fst snd models calls].
  destruct Hout; try congruence.
  - destruct n; try done. repeat split. cbn. by repeat constructor.
  - assert (e0 = e) as -> by congruence.
    destruct n; try done; repeat split; cbn; by repeat constructor.
Qed.

Lemma writes_guarded_split (l1 l2 : list entry) (e : entry) (made : bool) :
  writes_guarded made (l1 ++ e :: l2) = true →
  is_write (what e) = true →
  is_dir (before e) = true
  ∧ (made = true ∨ Mkdir OUTPUT_DIR ∈ map what l1).
Proof.
  revert made. induction l1 as [| e1 l1 IH]; intros made; cbn.
  - intros [Hhere _]%andb_prop Hw. rewrite Hw in Hhere. cbn in Hhere.
    apply andb_prop in Hhere as [-> ->]. split; [done | by left].
  - intros [_ Hrest]%andb_prop Hw.
    destruct (IH _ Hrest Hw) as [Hdir Hmade]. split; [done |].
    destruct Hmade as [Hmade | Hin].
    + apply orb_prop in Hmade as [-> | Hmk]; [by left |].
      right. apply bool_decide_eq_true_1 in Hmk. rewrite Hmk. left.
    + right. by right.
Qed.

Lemma run_writes_guarded (L : library) (n : node) :
  writes_guarded false (calls (run L n).2) = true.
Proof.
  destruct (run_spec L n) as (r & n' & l & Hout & ->). cbn [snd calls].
  destruct Hout as [ | | | | ? ? ? ? ? ? ? ? ? Hren
                     | ? ? ? ? ? ? ? ? ? Hren | ? ? ? ? ? ? ? ? Hren ].
  5-7: destruct n; try done; inversion Hren; subst; reflexivity.
  all: by destruct n.
Qed.

(** C4: in the log of every run, each call that writes below the output
    directory (the model save, the rename, the tokenizer save) was made
    when [models] was a directory, and [mkdir] comes before it in the log. *)
Theorem directory_exists_before_writes
    (L : library) (n : node) (l1 l2 : list entry) (e : entry) :
  calls (run L n).2 = l1 ++ e :: l2 →
  is_write (what e) = true →
  is_dir (before e) = true ∧ Mkdir OUTPUT_DIR ∈ map what l1.
Proof.
  intros Hlog Hwrite.
  pose proof (run_writes_guarded L n) as Hguard. rewrite Hlog in Hguard.
  destruct (writes_guarded_split _ _ _ _ Hguard Hwrite) as [Hdir [? | Hin]];
    done.
Qed.

Lemma rename_outcome_no_raise (L : library) (n n' : node) (e : exn)
    (cs : list call) :
  scandir_ok L → rename_outcome L n (Raise e) n' cs → False.
Proof.
  intros Hscan Hren.
  destruct n as [| ? | d];
    inversion Hren as [ | | | f rest Hmissing Hglob Hf ];
    try discriminate Hglob.
  cbn in Hglob, Hf.
  assert (Hin : f ∈ onnx_matches L d) by (rewrite Hglob; left).
  apply (onnx_matches_elem L d f Hscan) in Hin as [_ [x Hsome]]. congruence.
Qed.

Lemma rename_calls_fresh (cs : list call) (pre post : list call) :
  rename_calls cs →
  NoDup (pre ++ post) →
  Forall (λ c, c ≠ Glob OUTPUT_DIR "*.onnx" ∧ is_rename c = false)
    (pre ++ post) →
  NoDup (pre ++ cs ++ post).
Proof.
  intros Hcs Hnd Hfresh.
  apply NoDup_app in Hnd as (Hpre & Hdisj & Hpost).
  apply Forall_app in Hfresh as [Hfpre Hfpost].
  rewrite Forall_forall in Hfpre, Hfpost.
  assert (Hcs_fresh : ∀ c, c ∈ cs →
            c = Glob OUTPUT_DIR "*.onnx" ∨ is_rename c = true).
  { intros c Hc. destruct Hcs as [-> | [-> | [f ->]]].
    - by apply not_elem_of_nil in Hc.
    - apply list_elem_of_singleton in Hc. by left.
    - apply elem_of_cons in Hc as [-> | Hc]; [by left |].
      apply list_elem_of_singleton in Hc as ->. by right. }
  assert (Hnd_cs : NoDup cs).
  { destruct Hcs as [-> | [-> | [f ->]]].
    - constructor.
    - apply NoDup_singleton.
    - apply NoDup_cons. split; [| apply NoDup_singleton].
      intros Hin%list_elem_of_singleton. discriminate Hin. }
  apply NoDup_app. split; [done |]. split.
  - intros c Hc [Hin | Hin]%elem_of_app; [| by eapply Hdisj].
    destruct (Hfpre c Hc) as [Hg Hr].
    destruct (Hcs_fresh c Hin) as [-> | Hr']; [| congruence].
    by apply Hg.
  - apply NoDup_app. split; [done |]. split; [| done].
    intros c Hin Hc. destruct (Hfpost c Hc) as [Hg Hr].
    destruct (Hcs_fresh c Hin) as [-> | Hr']; [| congruence].
    by apply Hg.
Qed.

Lemma script_order_NoDup (cs : list call) :
  rename_calls cs → NoDup (script_order cs).
Proof.
  intros Hcs. unfold script_order.
  apply rename_calls_fresh; [done | |].
  - apply (bool_decide_unpack _). by vm_compute.
  - repeat (constructor; [split; [discriminate | reflexivity] |]).
    constructor.
Qed.

Lemma run_no_call_twice (L : library) (n : node) :
  NoDup (trace (run L n).2).
Proof.
  destruct (run_trace_order L n) as (mid & Hmid & Horder).
  pose proof (script_order_NoDup mid Hmid) as Hnd.
  destruct (run L n).1.
  - by rewrite Horder.
  - destruct Horder as (rest & _ & Heq). rewrite Heq in Hnd.
    by apply NoDup_app in Hnd as [? _].
Qed.

Lemma last_snoc_app {A} (l : list A) (x : A) : last (l ++ [x]) = Some x.
Proof. apply last_snoc. Qed.

(** C8: when a library call fails (the export, the tokenizer download, the
    model save or the tokenizer save, whichever comes first) in a run that
    got past [mkdir], [main] raises that very exception and the failing
    call is the last call it made; and no run makes any call twice. *)
Theorem library_failure_propagates
    (L : library) (n : node) (c : call) (e : exn) :
  scandir_ok L →
  is_regular n = false →
  first_failure L c e →
  (run L n).1 = Raise e
  ∧ last (trace (run L n).2) = Some c
  ∧ NoDup (trace (run L n).2).
Proof.
  intros Hscan Hreg Hfail.
  split; [| split; [| apply run_no_call_twice]].
  all: destruct (run_spec L n) as (r & n' & l & Hout & ->).
  all: unfold trace; cbn [fst snd calls].
  all: destruct Hout as [ | | | | ? ? ? ? ? ? ? ? ? Hren | | ];
    try congruence;
    try (exfalso; by eapply rename_outcome_no_raise).
  all: destruct Hfail; try congruence.
  all: try (f_equal; congruence).
  all: unfold log_rename, log_model_save, log_tokenizer, log_export;
    rewrite ?app_assoc, ?map_app; apply last_snoc_app.
Qed.

Lemma listdir_ok (d : gmap string blob) (n : string) :
  n ∈ listdir d ↔ is_Some (d !! n).
Proof. unfold listdir. by rewrite elem_of_elements, elem_of_dom. Qed.

Lemma hub_scandir_ok (fs ts : list (string * blob)) : scandir_ok (hub fs ts).
Proof. intros d n. apply listdir_ok. Qed.

Lemma run_ok_completion (L : library) (n : node) :
  (run L n).1 = Ok tt →
  ∃ pre : list call, trace (run L n).2 = pre ++ completion.
Proof.
  destruct (run_spec L n) as (r & n' & l & Hout & ->).
  unfold trace. cbn [fst snd calls].
  destruct Hout; try discriminate. intros _.
  eexists (_ ++ [_]).
  rewrite map_app. cbn [map]. rewrite what_at_node.
  by rewrite <- app_assoc.
Qed.

(** C9: every run that returns ends with the four closing [print]s, the
    success line and the line naming [models/model.onnx] among them; the
    run of [hub_no_onnx] returns and prints them although the output
    directory then holds no [*.onnx] file at all. *)
Theorem success_message_unconditional :
  (∀ (L : library) (n : node),
     (run L n).1 = Ok tt →
     ∃ pre : list call, trace (run L n).2 = pre ++ completion)
  ∧ (let r := run hub_no_onnx Absent in
     r.1 = Ok tt
     ∧ onnx_names (listing (models r.2)) = []
     ∧ listing (models r.2) !! "model.onnx" = None
     ∧ Print msg_success ∈ trace r.2
     ∧ Print msg_model ∈ trace r.2).
Proof.
  split; [exact run_ok_completion |].
  cbn zeta. split; [reflexivity |]. split; [reflexivity |].
  split; [reflexivity |].
  split; apply (bool_decide_unpack _); by vm_compute.
Qed.

(** ** What a successful run leaves in the output directory *)

Lemma write_files_keeps (fs : list (string * blob)) (d : gmap string blob)
    (k : string) :
  is_Some (d !! k) → is_Some (write_files fs d !! k).
Proof.
  revert d. induction fs as [| f fs IH]; intros d Hk; [done |].
  apply IH. unfold write_file. rewrite lookup_insert_is_Some.
  destruct (decide (f.1 = k)); [by left | by right].
Qed.

Lemma write_files_written (fs : list (string * blob)) (d : gmap string blob)
    (k : string) :
  k ∈ fs.*1 → is_Some (write_files fs d !! k).
Proof.
  revert d. induction fs as [| f fs IH]; intros d Hk.
  { by apply not_elem_of_nil in Hk. }
  cbn in Hk. apply elem_of_cons in Hk as [-> | Hk]; [| by apply IH].
  apply (write_files_keeps fs (write_file d f)).
  unfold write_file. rewrite lookup_insert_eq. by eexists.
Qed.

Lemma write_files_other (fs : list (string * blob)) (d : gmap string blob)
    (k : string) :
  k ∉ fs.*1 → write_files fs d !! k = d !! k.
Proof.
  revert d. induction fs as [| f fs IH]; intros d Hk; [done |].
  cbn in Hk. apply not_elem_of_cons in Hk as [Hne Hk].
  etrans; [apply (IH (write_file d f) Hk) |].
  unfold write_file. by rewrite lookup_insert_ne.
Qed.

(** C2, as the code has it: after a run that returns, the output directory
    holds every file the tokenizer save wrote, and it holds [model.onnx]
    whenever some [*.onnx] file was there after the model save.  For the
    names the tokenizer save did not write: when [model.onnx] was there
    after the model save, or no [*.onnx] file was, every entry is as the
    model save left it; otherwise the first [*.onnx] match of the scan is
    gone under its own name, [model.onnx] holds its content, and every
    other entry is as the model save left it, further [*.onnx] files
    included.  When the directory held just one [*.onnx] file after the
    model save and the tokenizer save writes none, [model.onnx] is the one
    and only [*.onnx] file afterwards. *)
Theorem successful_run_contents
    (L : library) (n : node) (m : model L) (t : tokenizer L) :
  scandir_ok L →
  (run L n).1 = Ok tt →
  model_from_pretrained L MODEL_NAME true = inr m →
  tokenizer_from_pretrained L MODEL_NAME = inr t →
  let saved_dir := listing (save_into (model_save L m) (after_mkdir n)) in
  let final := listing (models (run L n).2) in
  let tok_names := (written (tokenizer_save L t)).*1 in
  (∀ f : string, f ∈ tok_names → is_Some (final !! f))
  ∧ (∀ stem : string,
       is_Some (saved_dir !! (stem +:+ ".onnx")) →
       is_Some (final !! "model.onnx"))
  ∧ (is_Some (saved_dir !! "model.onnx")
     ∨ head (onnx_matches L saved_dir) = None →
     ∀ name : string, name ∉ tok_names → final !! name = saved_dir !! name)
  ∧ (∀ f : string,
       saved_dir !! "model.onnx" = None →
       head (onnx_matches L saved_dir) = Some f →
       is_Some (saved_dir !! f)
       ∧ ("model.onnx" ∉ tok_names →
          final !! "model.onnx" = saved_dir !! f)
       ∧ (f ∉ tok_names → final !! f = None)
       ∧ (∀ name : string,
            name ∉ tok_names → name ≠ f → name ≠ "model.onnx" →
            final !! name = saved_dir !! name))
  ∧ ((∃ stem : string, is_Some (saved_dir !! (stem +:+ ".onnx"))) →
     (∀ a b : string,
        fnmatch "*.onnx" a = true → fnmatch "*.onnx" b = true →
        is_Some (saved_dir !! a) → is_Some (saved_dir !! b) → a = b) →
     (∀ name : string, name ∈ tok_names → fnmatch "*.onnx" name = false) →
     only_model_onnx final).
Proof.
  intros Hscan Hok Hm Ht.
  destruct (run_spec L n) as (r & n' & l & Hout & Hrun).
  rewrite Hrun in *. cbn [fst snd models] in *. cbn zeta.
  destruct Hout as [ | | | | | | m0 t0 n3 cs Hreg Hm0 Ht0 Hsave Hren Htsave ];
    try discriminate Hok.
  assert (m0 = m) as -> by congruence.
  assert (t0 = t) as -> by congruence.
  unfold save_into in *. cbn [listing] in *.
  set (d := write_files (written (model_save L m)) (listing (after_mkdir n)))
    in *.
  set (tok := written (tokenizer_save L t)) in *.
  set (final := write_files tok (listing n3)).
  assert (Htok : ∀ f, f ∈ tok.*1 → is_Some (final !! f)).
  { intros f Hf. by apply write_files_written. }
  assert (Hmodel : ∀ stem, is_Some (d !! (stem +:+ ".onnx")) →
                           is_Some (final !! "model.onnx")).
  { intros stem Hstem. apply write_files_keeps.
    assert (Hin : stem +:+ ".onnx" ∈ onnx_matches L d).
    { apply onnx_matches_elem; [done |]. split; [| done].
      apply fnmatch_star_onnx. by exists stem. }
    inversion Hren as [ Hyes | Hno Hglob | f rest data Hno Hglob Hf | ];
      subst; cbn [listing glob_onnx] in *.
    + done.
    + rewrite Hglob in Hin. by apply not_elem_of_nil in Hin.
    + rewrite lookup_insert_eq. by eexists. }
  assert (Hsame : is_Some (d !! "model.onnx") ∨ head (onnx_matches L d) = None →
                  ∀ name, name ∉ tok.*1 → final !! name = d !! name).
  { intros Hcase name Hname. subst final.
    rewrite write_files_other by done.
    inversion Hren as [ Hyes | Hno Hglob | f rest data Hno Hglob Hf | ];
      subst; cbn [listing glob_onnx] in *; try done.
    destruct Hcase as [Hyes | Hnone].
    + rewrite Hno in Hyes. by destruct Hyes.
    + rewrite Hglob in Hnone. discriminate Hnone. }
  assert (Hmoved : ∀ f, d !! "model.onnx" = None →
            head (onnx_matches L d) = Some f →
            is_Some (d !! f)
            ∧ ("model.onnx" ∉ tok.*1 → final !! "model.onnx" = d !! f)
            ∧ (f ∉ tok.*1 → final !! f = None)
            ∧ (∀ name, name ∉ tok.*1 → name ≠ f → name ≠ "model.onnx" →
                       final !! name = d !! name)).
  { intros f Hmissing Hhead. subst final.
    inversion Hren as [ Hyes | Hno Hglob | f1 rest data Hno Hglob Hf1 | ];
      subst; cbn [listing glob_onnx] in *.
    - rewrite Hmissing in Hyes. by destruct Hyes.
    - rewrite Hglob in Hhead. discriminate Hhead.
    - rewrite Hglob in Hhead. injection Hhead as ->.
      assert (f ≠ "model.onnx") by congruence.
      split; [by eexists |]. split; [| split].
      + intros Hw. rewrite write_files_other by done.
        by rewrite lookup_insert_eq.
      + intros Hw. rewrite write_files_other by done.
        rewrite lookup_insert_ne by done. by rewrite lookup_delete_eq.
      + intros name Hw Hnf Hnm. rewrite write_files_other by done.
        rewrite lookup_insert_ne by done. by rewrite lookup_delete_ne. }
  do 4 (split; [done |]).
  intros [stem Hstem] Hone Htok_onnx.
  split; [by eapply Hmodel |].
  intros name Honnx Hname.
  assert (Hnw : name ∉ tok.*1).
  { intros Hin. rewrite (Htok_onnx name Hin) in Honnx. discriminate Honnx. }
  assert (Hstem_onnx : fnmatch "*.onnx" (stem +:+ ".onnx") = true)
    by (apply fnmatch_star_onnx; by exists stem).
  destruct (d !! "model.onnx") as [data |] eqn:Hnamed.
  - rewrite (Hsame (or_introl (mk_is_Some _ _ eq_refl)) name Hnw) in Hname.
    apply Hone; [done | done | done |]. rewrite Hnamed. by eexists.
  - assert (Hin : stem +:+ ".onnx" ∈ onnx_matches L d)
      by by apply onnx_matches_elem.
    destruct (onnx_matches L d) as [| f rest] eqn:Hglob;
      [by apply not_elem_of_nil in Hin |].
    destruct (Hmoved f eq_refl eq_refl) as (Hf & _ & Hgone & Hrest).
    assert (Hf_onnx : fnmatch "*.onnx" f = true).
    { assert (Hfin : f ∈ onnx_matches L d) by (rewrite Hglob; left).
      by apply (onnx_matches_elem L d f Hscan) in Hfin as [? _]. }
    destruct (decide (name = "model.onnx")) as [| Hnm]; [done |].
    exfalso. destruct (decide (name = f)) as [-> | Hnf].
    + assert (Hfw : f ∉ tok.*1).
      { intros Hin'. rewrite (Htok_onnx f Hin') in Hf_onnx.
        discriminate Hf_onnx. }
      rewrite (Hgone Hfw) in Hname. by destruct Hname.
    + rewrite (Hrest name Hnw Hnf Hnm) in Hname.
      by apply Hnf, Hone.
Qed.

(** C2 as stated fails: the run of [hub_split] returns, and the output
    directory then holds [b.onnx] next to [model.onnx]. *)
Lemma second_onnx_file_remains :
  scandir_ok hub_split
  ∧ (run hub_split Absent).1 = Ok tt
  ∧ listing (models (run hub_split Absent).2) !! "b.onnx" = Some "B"
  ∧ ¬ only_model_onnx (listing (models (run hub_split Absent).2)).
Proof.
  split; [apply hub_scandir_ok |]. split; [reflexivity |].
  split; [reflexivity |].
  intros [_ Honly].
  specialize (Honly "b.onnx" eq_refl (ex_intro _ "B" eq_refl)).
  discriminate Honly.
Qed.

(** ** The theorems at concrete runs *)

Lemma offline_scandir_ok (L : library) : scandir_ok L → scandir_ok (offline L).
Proof. intros Hscan d n. apply Hscan. Qed.

Lemma rename_step_produces_model_onnx_witness :
  listing dir_misnamed !! "model.onnx" = None
  ∧ (rename_step hub_named (start dir_misnamed)).1 = Ok tt
  ∧ is_Some
      (listing (models (rename_step hub_named (start dir_misnamed)).2)
         !! "model.onnx").
Proof.
  split; [reflexivity |].
  apply (rename_step_produces_model_onnx hub_named (start dir_misnamed)
           "exported").
  - apply hub_scandir_ok.
  - reflexivity.
  - exists "ONNX". reflexivity.
Defined.

Lemma successful_run_contents_witness :
  (run hub_split Absent).1 = Ok tt
  ∧ is_Some (listing (models (run hub_split Absent).2) !! "tokenizer.json")
  ∧ is_Some (listing (models (run hub_split Absent).2) !! "model.onnx")
  ∧ listing (models (run hub_split Absent).2) !! "model.onnx" = Some "A"
  ∧ listing (models (run hub_split Absent).2) !! "a.onnx" = None
  ∧ listing (models (run hub_split Absent).2) !! "b.onnx" = Some "B".
Proof.
  split; [reflexivity |].
  destruct (successful_run_contents hub_split Absent tt tt
              (hub_scandir_ok _ _) eq_refl eq_refl eq_refl)
    as (Htok & Honnx & _ & Hmoved & _).
  destruct (Hmoved "a.onnx" eq_refl eq_refl)
    as (_ & Hcontent & Hgone & Hrest).
  split; [| split; [| split; [| split]]].
  - apply Htok. apply (bool_decide_unpack _). by vm_compute.
  - apply (Honnx "b"). exists "B". reflexivity.
  - refine (eq_trans (Hcontent _) eq_refl).
    apply (bool_decide_unpack _). by vm_compute.
  - apply Hgone. apply (bool_decide_unpack _). by vm_compute.
  - refine (eq_trans (Hrest "b.onnx" _ _ _) eq_refl);
      [apply (bool_decide_unpack _); by vm_compute
      | discriminate | discriminate].
Defined.

Lemma main_call_order_witness :
  forallb snd (script_steps hub_split Absent) = true
  ∧ (run hub_split Absent).1 = Ok tt
  ∧ trace (run hub_split Absent).2 =
      until_failure (script_steps hub_split Absent).
Proof.
  destruct (main_call_order hub_split Absent) as (Hcalls & Hok & _).
  split; [reflexivity |]. split; [| exact Hcalls].
  apply Hok. reflexivity.
Defined.

Lemma export_failure_writes_nothing_witness :
  model_from_pretrained (offline hub_named) MODEL_NAME true =
    inl (LibraryError "unreachable")
  ∧ (run (offline hub_named) Absent).1 = Raise (LibraryError "unreachable")
  ∧ models (run (offline hub_named) Absent).2 = Directory ∅
  ∧ listing (models (run (offline hub_named) Absent).2) = ∅
  ∧ Forall (λ c, is_write c = false)
      (trace (run (offline hub_named) Absent).2).
Proof.
  split; [reflexivity |].
  apply (export_failure_writes_nothing (offline hub_named) Absent
           (LibraryError "unreachable")).
  reflexivity.
Defined.

Lemma directory_exists_before_writes_witness :
  is_write (Rename (joinpath OUTPUT_DIR "a.onnx")
              (joinpath OUTPUT_DIR "model.onnx")) = true
  ∧ (calls (run hub_split Absent).2) !! 9%nat =
      Some (at_node
              (Directory (<["b.onnx" := "B"]> (<["a.onnx" := "A"]> ∅)))
              (Rename (joinpath OUTPUT_DIR "a.onnx")
                 (joinpath OUTPUT_DIR "model.onnx")))
  ∧ Mkdir OUTPUT_DIR ∈ map what (take 9 (calls (run hub_split Absent).2)).
Proof.
  split; [reflexivity |]. split; [reflexivity |].
  apply (directory_exists_before_writes hub_split Absent
           (take 9 (calls (run hub_split Absent).2))
           (drop 10 (calls (run hub_split Absent).2))
           (at_node
              (Directory (<["b.onnx" := "B"]> (<["a.onnx" := "A"]> ∅)))
              (Rename (joinpath OUTPUT_DIR "a.onnx")
                 (joinpath OUTPUT_DIR "model.onnx")))).
  - reflexivity.
  - reflexivity.
Defined.

Lemma rename_step_frame_witness :
  is_Some (listing dir_named !! "model.onnx")
  ∧ rename_step hub_named (start dir_named) =
      (Ok tt, {| models := dir_named; calls := [exists_entry dir_named] |})
  ∧ listing (models (rename_step hub_named (start dir_misnamed)).2)
      !! "config.json" = Some "{}".
Proof.
  assert (Hnamed : is_Some (listing dir_named !! "model.onnx"))
    by (exists "ONNX"; reflexivity).
  split; [exact Hnamed |]. split.
  - exact (proj1 (rename_step_frame hub_named (start dir_named)) Hnamed).
  - destruct (rename_step_frame hub_named (start dir_misnamed))
      as (_ & _ & Hframe & _).
    refine (eq_trans (Hframe "config.json" _ _) _);
      [discriminate | | reflexivity].
    apply (bool_decide_unpack _). by vm_compute.
Defined.

Lemma library_failure_propagates_witness :
  is_regular Absent = false
  ∧ (run (offline hub_named) Absent).1 = Raise (LibraryError "unreachable")
  ∧ last (trace (run (offline hub_named) Absent).2) =
      Some (ModelFromPretrained MODEL_NAME true)
  ∧ NoDup (trace (run (offline hub_named) Absent).2).
Proof.
  split; [reflexivity |].
  apply (library_failure_propagates (offline hub_named) Absent
           (ModelFromPretrained MODEL_NAME true)
           (LibraryError "unreachable")).
  - apply offline_scandir_ok, hub_scandir_ok.
  - reflexivity.
  - apply export_fails. reflexivity.
Defined.

Lemma success_message_unconditional_witness :
  (run hub_named Absent).1 = Ok tt
  ∧ ∃ pre : list call, trace (run hub_named Absent).2 = pre ++ completion.
Proof.
  split; [reflexivity |].
  apply (proj1 success_message_unconditional hub_named Absent).
  reflexivity.
Defined.

(** * Further properties of [main] *)

(** ** The rename step never loses a file *)

Lemma rename_outcome_size (L : library) (n n' : node) (r : result unit)
    (cs : list call) :
  rename_outcome L n r n' cs → size (listing n') = size (listing n).
Proof.
  destruct 1 as [ | | f rest data Hmissing Hglob Hf | ]; try done.
  cbn [listing].
  rewrite map_size_insert_None
    by (rewrite lookup_delete_ne; [done | congruence]).
  rewrite map_size_delete_Some by by eexists.
  assert (size (listing n) ≠ 0%nat); [| lia].
  intros Hzero%map_size_empty_inv. rewrite Hzero, lookup_empty in Hf.
  discriminate Hf.
Qed.

(** X1: the rename step (lines 40-45) leaves the number of entries of the
    output directory as it was: it tests for [model.onnx] first, so its
    [rename] never lands on an existing file, and it creates and deletes
    nothing. *)
Theorem rename_step_keeps_entry_count (L : library) (w : world) :
  size (listing (models (rename_step L w).2)) = size (listing (models w)).
Proof.
  destruct (rename_step_outcome L w) as (r & n' & cs & Hout & ->).
  cbn [snd models]. by eapply rename_outcome_size.
Qed.

(** ** Which files a run renames *)

Lemma glob_onnx_head_suffix (L : library) (n : node) (f : string)
    (rest : list string) :
  glob_onnx L n = f :: rest → ∃ stem : string, f = stem +:+ ".onnx".
Proof.
  intros Hglob. apply fnmatch_star_onnx.
  assert (Hin : In f (glob_onnx L n)) by (rewrite Hglob; by left).
  destruct n; try done. cbn in Hin. unfold onnx_matches in Hin.
  by apply filter_In in Hin as [_ ?].
Qed.

Lemma rename_outcome_renames (L : library) (n n' : node) (r : result unit)
    (cs : list call) (src dst : string) :
  rename_outcome L n r n' cs →
  Rename src dst ∈ cs →
  ∃ f : string,
    head (glob_onnx L n) = Some f
    ∧ listing n !! "model.onnx" = None
    ∧ src = joinpath OUTPUT_DIR f
    ∧ dst = joinpath OUTPUT_DIR "model.onnx".
Proof.
  destruct 1 as [ | | f rest data Hmissing Hglob Hf
                | f rest Hmissing Hglob Hf ]; intros Hin.
  - by apply not_elem_of_nil in Hin.
  - apply list_elem_of_singleton in Hin. discriminate Hin.
  - apply elem_of_cons in Hin as [Hin | Hin]; [discriminate Hin |].
    apply list_elem_of_singleton in Hin. injection Hin as -> ->.
    exists f. by rewrite Hglob.
  - apply elem_of_cons in Hin as [Hin | Hin]; [discriminate Hin |].
    apply list_elem_of_singleton in Hin. injection Hin as -> ->.
    exists f. by rewrite Hglob.
Qed.

Ltac no_such_call H :=
  cbn in H;
  repeat (apply elem_of_cons in H as [H | H]; [discriminate H |]);
  by apply not_elem_of_nil in H.

(** The renames of a run are those of its rename step. *)
Lemma run_renames (L : library) (n : node) (src dst : string) :
  Rename src dst ∈ trace (run L n).2 →
  ∃ (m : model L) (r : result unit) (n' : node) (cs : list call),
    model_from_pretrained L MODEL_NAME true = inr m
    ∧ failure (model_save L m) = None
    ∧ rename_outcome L (save_into (model_save L m) (after_mkdir n)) r n' cs
    ∧ Rename src dst ∈ cs.
Proof.
  destruct (run_spec L n) as (r & n' & l & Hout & ->).
  unfold trace. cbn [snd calls]. intros Hin.
  destruct Hout as [ | | | | m t e n3 cs Hreg Hm Ht Hsave Hren
                     | m t e n3 cs Hreg Hm Ht Hsave Hren Htsave
                     | m t n3 cs Hreg Hm Ht Hsave Hren Htsave ].
  1-4: no_such_call Hin.
  all: eexists m, _, n3, cs; do 3 (split; [eassumption |]).
  all: unfold log_rename in Hin; rewrite ?map_app, ?what_at_node in Hin.
  all: repeat (apply elem_of_app in Hin as [Hin | Hin]);
    try (no_such_call Hin).
  all: try (apply elem_of_cons in Hin as [Hin | Hin]; [discriminate Hin |]);
    try done.
  all: cbn in Hin; rewrite ?what_at_node in Hin.
  all: apply elem_of_cons in Hin as [Hin | Hin]; [discriminate Hin |].
  all: no_such_call Hin.
Qed.

(** X2: whatever the libraries write and however the directory is listed,
    every [rename] a run makes moves an entry whose name ends in [.onnx]
    (letter case included) to [models/model.onnx]; no other file is ever
    renamed and no other target is ever used. *)
Theorem run_renames_only_onnx
    (L : library) (n : node) (src dst : string) :
  Rename src dst ∈ trace (run L n).2 →
  dst = joinpath OUTPUT_DIR "model.onnx"
  ∧ ∃ stem : string, src = joinpath OUTPUT_DIR (stem +:+ ".onnx").
Proof.
  intros Hin.
  destruct (run_renames L n src dst Hin)
    as (m & r & n' & cs & _ & _ & Hren & Hcs).
  destruct (rename_outcome_renames _ _ _ _ _ _ _ Hren Hcs)
    as (f & Hhead & _ & -> & ->).
  split; [done |].
  destruct (glob_onnx L _) as [| f0 rest] eqn:Hglob; [discriminate Hhead |].
  injection Hhead as ->.
  destruct (glob_onnx_head_suffix _ _ _ _ Hglob) as [stem ->]. by exists stem.
Qed.

(** ** What a run prints *)

(** X3: a run that returns has printed exactly the seven lines of the
    script, in order, whatever the libraries answered and wrote; a run that
    raises has printed only the first one, two or three of them (the
    progress lines) and none of the closing lines. *)
Theorem printed_lines (L : library) (n : node) :
  match (run L n).1 with
  | Ok _ => stdout (run L n).2 = script_lines
  | Raise _ =>
      ∃ k : nat, (1 ≤ k ≤ 3)%nat ∧ stdout (run L n).2 = take k script_lines
  end.
Proof.
  destruct (run_spec L n) as (r & n' & l & Hout & ->).
  unfold stdout, trace. cbn [fst snd calls].
  destruct Hout as [ | | | | ? ? ? ? ? ? ? ? ? Hren
                     | ? ? ? ? ? ? ? ? ? Hren | ? ? ? ? ? ? ? ? Hren ].
  - exists 1%nat. split; [lia | reflexivity].
  - exists 2%nat. split; [lia | reflexivity].
  - exists 3%nat. split; [lia | reflexivity].
  - exists 3%nat. split; [lia | reflexivity].
  - exists 3%nat. split; [lia |]. inversion Hren; subst; reflexivity.
  - exists 3%nat. split; [lia |]. inversion Hren; subst; reflexivity.
  - inversion Hren; subst; reflexivity.
Qed.

(** ** Failures after the export *)

(** X4: when the model was exported but the tokenizer download raises, the
    run raises that exception before anything was saved: no save and no
    rename was called, and [models] is what [mkdir] left.  The exported
    model is lost with the process. *)
Theorem tokenizer_download_failure_writes_nothing
    (L : library) (n : node) (m : model L) (e : exn) :
  is_regular n = false →
  model_from_pretrained L MODEL_NAME true = inr m →
  tokenizer_from_pretrained L MODEL_NAME = inl e →
  (run L n).1 = Raise e
  ∧ models (run L n).2 = after_mkdir n
  ∧ listing (models (run L n).2) = listing n
  ∧ Forall (λ c, is_write c = false) (trace (run L n).2).
Proof.
  intros Hreg Hm Ht.
  destruct (run_spec L n) as (r & n' & l & Hout & ->).
  unfold trace. cbn [fst snd models calls].
  destruct Hout; try congruence.
  assert (e0 = e) as -> by congruence.
  destruct n; try done; repeat split; cbn; by repeat constructor.
Qed.

Lemma tokenizer_download_failure_writes_nothing_witness :
  (run (no_tokenizer hub_named) Absent).1 = Raise (LibraryError "unreachable")
  ∧ models (run (no_tokenizer hub_named) Absent).2 = Directory ∅
  ∧ listing (models (run (no_tokenizer hub_named) Absent).2) = ∅
  ∧ Forall (λ c, is_write c = false)
      (trace (run (no_tokenizer hub_named) Absent).2).
Proof.
  apply (tokenizer_download_failure_writes_nothing
           (no_tokenizer hub_named) Absent tt (LibraryError "unreachable"));
    reflexivity.
Defined.

(** X5: when the tokenizer save raises after the model save went through,
    the run raises that exception, prints no closing line, and cleans
    nothing up: the files the failed save had already written are in the
    output directory, and so is every file of the model save (the first
    [*.onnx] match under the name [model.onnx] when it was renamed). *)
Theorem tokenizer_save_failure_leaves_output
    (L : library) (n : node) (m : model L) (t : tokenizer L) (e : exn) :
  scandir_ok L →
  is_regular n = false →
  model_from_pretrained L MODEL_NAME true = inr m →
  tokenizer_from_pretrained L MODEL_NAME = inr t →
  failure (model_save L m) = None →
  failure (tokenizer_save L t) = Some e →
  let saved_dir := listing (save_into (model_save L m) (after_mkdir n)) in
  let final := listing (models (run L n).2) in
  (run L n).1 = Raise e
  ∧ stdout (run L n).2 = take 3 script_lines
  ∧ (∀ f : string,
       f ∈ (written (tokenizer_save L t)).*1 → is_Some (final !! f))
  ∧ (∀ f : string,
       f ∈ (written (model_save L m)).*1 →
       is_Some (final !! f)
       ∨ (head (onnx_matches L saved_dir) = Some f
          ∧ is_Some (final !! "model.onnx"))).
Proof.
  intros Hscan Hreg Hm Ht Hsave Htsave.
  destruct (run_spec L n) as (r & n' & l & Hout & Hrun).
  rewrite Hrun. unfold stdout, trace. cbn [fst snd models calls]. cbn zeta.
  destruct Hout as [ | | | | ? ? ? ? ? ? ? ? ? Hren
                     | m0 t0 e0 n3 cs ? Hm0 Ht0 ? Hren Htsave0 | ];
    try congruence;
    try (exfalso; by eapply rename_outcome_no_raise).
  assert (m0 = m) as -> by congruence.
  assert (t0 = t) as -> by congruence.
  assert (e0 = e) as -> by congruence.
  unfold save_into in *. cbn [listing] in *.
  set (d := write_files (written (model_save L m)) (listing (after_mkdir n)))
    in *.
  split; [done |]. split; [inversion Hren; subst; reflexivity |]. split.
  - intros f Hf. by apply write_files_written.
  - intros f Hf.
    assert (Hd : is_Some (d !! f)) by by apply write_files_written.
    inversion Hren as [ Hyes | Hno Hglob | f1 rest data Hno Hglob Hf1 | ];
      subst; cbn [listing glob_onnx] in *.
    + left. by apply write_files_keeps.
    + left. by apply write_files_keeps.
    + destruct (decide (f = f1)) as [-> | Hne].
      { right. rewrite Hglob. split; [done |].
        apply write_files_keeps. rewrite lookup_insert_eq. by eexists. }
      left. apply write_files_keeps. rewrite lookup_insert_is_Some.
      destruct (decide ("model.onnx" = f)); [by left | right].
      split; [done |]. by rewrite lookup_delete_ne.
Qed.

Lemma tokenizer_save_failure_leaves_output_witness :
  failure (tokenizer_save (disk_full hub_renamed) tt) =
    Some (LibraryError "no space left")
  ∧ (run (disk_full hub_renamed) Absent).1 =
      Raise (LibraryError "no space left")
  ∧ is_Some (listing (models (run (disk_full hub_renamed) Absent).2)
               !! "tokenizer.json").
Proof.
  split; [reflexivity |].
  destruct (tokenizer_save_failure_leaves_output (disk_full hub_renamed)
              Absent tt tt (LibraryError "no space left"))
    as (Hraise & _ & Htok & _).
  - intros d n. apply listdir_ok.
  - reflexivity.
  - reflexivity.
  - reflexivity.
  - reflexivity.
  - reflexivity.
  - split; [exact Hraise |].
    apply Htok. apply (bool_decide_unpack _). by vm_compute.
Defined.

(** ** Runs over an output directory that is already populated *)

(** A run that returns went through every step. *)
Lemma run_ok_inv (L : library) (n : node) :
  (run L n).1 = Ok tt →
  ∃ (m : model L) (t : tokenizer L) (n3 : node) (cs : list call),
    is_regular n = false
    ∧ model_from_pretrained L MODEL_NAME true = inr m
    ∧ tokenizer_from_pretrained L MODEL_NAME = inr t
    ∧ failure (model_save L m) = None
    ∧ rename_outcome L (save_into (model_save L m) (after_mkdir n))
        (Ok tt) n3 cs
    ∧ failure (tokenizer_save L t) = None
    ∧ models (run L n).2 = save_into (tokenizer_save L t) n3.
Proof.
  destruct (run_spec L n) as (r & n' & l & Hout & ->). cbn [fst snd models].
  destruct Hout; try discriminate. intros _.
  by eexists _, _, _, _.
Qed.

Lemma listing_after_mkdir (n : node) : listing (after_mkdir n) = listing n.
Proof. by destruct n. Qed.

Lemma rename_outcome_named (L : library) (n n' : node) (r : result unit)
    (cs : list call) :
  rename_outcome L n r n' cs →
  is_Some (listing n !! "model.onnx") →
  n' = n ∧ cs = [] ∧ r = Ok tt.
Proof.
  destruct 1 as [ | Hno | ? ? ? Hno | ? ? Hno ]; [done | | |];
    rewrite Hno; by intros [? ?].
Qed.

(** X6: when [model.onnx] is already in the output directory before the
    run (left by an earlier run, say), no run ever lists the directory or
    renames anything, whatever name the model save stores the export
    under. *)
Theorem existing_model_onnx_never_renamed (L : library) (n : node) :
  is_Some (listing n !! "model.onnx") →
  Forall (λ c, is_rename c = false ∧ c ≠ Glob OUTPUT_DIR "*.onnx")
    (trace (run L n).2).
Proof.
  intros Hold.
  assert (Hkept : ∀ s, is_Some
            (listing (save_into s (after_mkdir n)) !! "model.onnx")).
  { intros s. cbn. apply write_files_keeps. by rewrite listing_after_mkdir. }
  destruct (run_spec L n) as (r & n' & l & Hout & ->).
  unfold trace. cbn [snd calls].
  destruct Hout as [ | | | | ? ? ? ? ? ? ? ? ? Hren
                     | ? ? ? ? ? ? ? ? ? Hren | ? ? ? ? ? ? ? ? Hren ].
  5-7: destruct (rename_outcome_named _ _ _ _ _ Hren (Hkept _))
         as (-> & -> & ?); try discriminate.
  all: cbn; repeat (constructor; [split; [reflexivity | discriminate] |]).
  all: constructor.
Qed.

Lemma existing_model_onnx_never_renamed_witness :
  is_Some (listing dir_stale !! "model.onnx")
  ∧ Forall (λ c, is_rename c = false ∧ c ≠ Glob OUTPUT_DIR "*.onnx")
      (trace (run hub_renamed dir_stale).2).
Proof.
  assert (Hold : is_Some (listing dir_stale !! "model.onnx"))
    by (exists "OLD"; reflexivity).
  split; [exact Hold |].
  exact (existing_model_onnx_never_renamed hub_renamed dir_stale Hold).
Defined.

(** X7: when [model.onnx] is already there before the run and neither save
    writes a file of that name, a run that returns leaves the old
    [model.onnx] as it was, with its old content; the files of the new
    export lie beside it under the names the model save gave them. *)
Theorem stale_model_onnx_kept
    (L : library) (n : node) (m : model L) (t : tokenizer L) (old : blob) :
  listing n !! "model.onnx" = Some old →
  model_from_pretrained L MODEL_NAME true = inr m →
  tokenizer_from_pretrained L MODEL_NAME = inr t →
  "model.onnx" ∉ (written (model_save L m)).*1 →
  "model.onnx" ∉ (written (tokenizer_save L t)).*1 →
  (run L n).1 = Ok tt →
  listing (models (run L n).2) !! "model.onnx" = Some old
  ∧ ∀ f : string,
      f ∈ (written (model_save L m)).*1 →
      is_Some (listing (models (run L n).2) !! f).
Proof.
  intros Hold Hm Ht Hmw Htw Hok.
  destruct (run_ok_inv L n Hok)
    as (m0 & t0 & n3 & cs & Hreg & Hm0 & Ht0 & Hsave & Hren & Htsave & ->).
  assert (m0 = m) as -> by congruence.
  assert (t0 = t) as -> by congruence.
  assert (Hsaved : listing (save_into (model_save L m) (after_mkdir n))
                     !! "model.onnx" = Some old).
  { cbn. rewrite write_files_other by done.
    by rewrite listing_after_mkdir. }
  destruct (rename_outcome_named _ _ _ _ _ Hren) as (-> & _ & _).
  { rewrite Hsaved. by eexists. }
  split.
  - cbn [save_into listing] in *. by rewrite write_files_other.
  - intros f Hf. cbn [save_into listing]. apply write_files_keeps.
    by apply write_files_written.
Qed.

Lemma stale_model_onnx_kept_witness :
  listing dir_stale !! "model.onnx" = Some "OLD"
  ∧ (run hub_renamed dir_stale).1 = Ok tt
  ∧ listing (models (run hub_renamed dir_stale).2) !! "model.onnx"
      = Some "OLD"
  ∧ is_Some (listing (models (run hub_renamed dir_stale).2)
               !! "exported.onnx").
Proof.
  split; [reflexivity |]. split; [reflexivity |].
  destruct (stale_model_onnx_kept hub_renamed dir_stale tt tt "OLD")
    as [Hkept Hnew].
  - reflexivity.
  - reflexivity.
  - reflexivity.
  - apply (bool_decide_unpack _). by vm_compute.
  - apply (bool_decide_unpack _). by vm_compute.
  - reflexivity.
  - split; [exact Hkept |].
    apply Hnew. apply (bool_decide_unpack _). by vm_compute.
Defined.

(** ** What a run does to the files that were there *)

Lemma rename_outcome_keeps (L : library) (n n' : node) (r : result unit)
    (cs : list call) (name : string) :
  rename_outcome L n r n' cs →
  is_Some (listing n !! name) →
  is_Some (listing n' !! name)
  ∨ (Rename (joinpath OUTPUT_DIR name) (joinpath OUTPUT_DIR "model.onnx") ∈ cs
     ∧ is_Some (listing n' !! "model.onnx")).
Proof.
  destruct 1 as [ | | f rest data Hmissing Hglob Hf | ]; intros Hname;
    try by left.
  cbn [listing]. destruct (decide (name = f)) as [-> | Hne].
  - right. split; [right; left |]. rewrite lookup_insert_eq. by eexists.
  - left. rewrite lookup_insert_is_Some.
    destruct (decide ("model.onnx" = name)); [by left | right].
    split; [done |]. by rewrite lookup_delete_ne.
Qed.

Lemma save_into_keeps (s : saved) (n : node) (name : string) :
  is_Some (listing n !! name) → is_Some (listing (save_into s n) !! name).
Proof. intros Hname. cbn. by apply write_files_keeps. Qed.

(** X8: no run, returning or raising, deletes anything: every entry that
    was in the output directory before the run is still there under its
    name afterwards (possibly overwritten by a save), except an entry the
    run renamed, which is then there as [model.onnx]. *)
Theorem run_keeps_entries (L : library) (n : node) (name : string) :
  is_Some (listing n !! name) →
  is_Some (listing (models (run L n).2) !! name)
  ∨ (Rename (joinpath OUTPUT_DIR name) (joinpath OUTPUT_DIR "model.onnx")
       ∈ trace (run L n).2
     ∧ is_Some (listing (models (run L n).2) !! "model.onnx")).
Proof.
  intros Hname.
  assert (Hmk : is_Some (listing (after_mkdir n) !! name))
    by by rewrite listing_after_mkdir.
  destruct (run_spec L n) as (r & n' & l & Hout & ->).
  unfold trace. cbn [snd calls models].
  destruct Hout as [ | | | | m t e n3 cs ? ? ? ? Hren
                     | m t e n3 cs ? ? ? ? Hren | m t n3 cs ? ? ? ? Hren ];
    try by left.
  - left. by apply save_into_keeps.
  - destruct (rename_outcome_keeps _ _ _ _ _ name Hren) as [? | [Hin ?]];
      [by apply save_into_keeps | by left |].
    right. split; [| done].
    unfold log_rename. rewrite map_app, what_at_node.
    apply elem_of_app. right. by right.
  - destruct (rename_outcome_keeps _ _ _ _ _ name Hren) as [? | [Hin ?]];
      [by apply save_into_keeps | left; by apply save_into_keeps |].
    right. split; [| by apply save_into_keeps].
    unfold log_rename. rewrite !map_app, what_at_node.
    apply elem_of_app. left. apply elem_of_app. right. by right.
  - destruct (rename_outcome_keeps _ _ _ _ _ name Hren) as [? | [Hin ?]];
      [by apply save_into_keeps | left; by apply save_into_keeps |].
    right. split; [| by apply save_into_keeps].
    unfold log_rename. rewrite !map_app, what_at_node.
    apply elem_of_app. left. apply elem_of_app. right. by right.
Qed.

Lemma run_keeps_entries_witness :
  is_Some (listing dir_stale !! "notes.txt")
  ∧ (is_Some (listing (models (run hub_split dir_stale).2) !! "notes.txt")
     ∨ (Rename (joinpath OUTPUT_DIR "notes.txt")
          (joinpath OUTPUT_DIR "model.onnx")
          ∈ trace (run hub_split dir_stale).2
        ∧ is_Some (listing (models (run hub_split dir_stale).2)
                     !! "model.onnx"))).
Proof.
  assert (Hthere : is_Some (listing dir_stale !! "notes.txt"))
    by (exists "keep"; reflexivity).
  split; [exact Hthere |].
  exact (run_keeps_entries hub_split dir_stale "notes.txt" Hthere).
Defined.

(** X9: in a run that returns and in which [model.onnx] was missing after
    the model save, [model.onnx] ends up with the content of the first
    [*.onnx] entry of the directory scan (unless the tokenizer save writes
    [model.onnx] itself).  When that entry is not among the files the model
    save wrote, this is a file from before the run: [model.onnx] is then
    not the model this run exported. *)
Theorem renamed_model_is_first_match
    (L : library) (n : node) (m : model L) (t : tokenizer L) (f : string) :
  (run L n).1 = Ok tt →
  model_from_pretrained L MODEL_NAME true = inr m →
  tokenizer_from_pretrained L MODEL_NAME = inr t →
  let saved_dir := listing (save_into (model_save L m) (after_mkdir n)) in
  saved_dir !! "model.onnx" = None →
  head (onnx_matches L saved_dir) = Some f →
  "model.onnx" ∉ (written (tokenizer_save L t)).*1 →
  is_Some (saved_dir !! f)
  ∧ listing (models (run L n).2) !! "model.onnx" = saved_dir !! f
  ∧ (f ∉ (written (model_save L m)).*1 → saved_dir !! f = listing n !! f).
Proof.
  intros Hok Hm Ht saved_dir Hmissing Hhead Htw.
  destruct (run_ok_inv L n Hok)
    as (m0 & t0 & n3 & cs & Hreg & Hm0 & Ht0 & Hsave & Hren & Htsave & ->).
  assert (m0 = m) as -> by congruence.
  assert (t0 = t) as -> by congruence.
  assert (Hframe : f ∉ (written (model_save L m)).*1 →
                   saved_dir !! f = listing n !! f).
  { intros Hf. subst saved_dir. cbn. rewrite write_files_other by done.
    by rewrite listing_after_mkdir. }
  subst saved_dir. unfold save_into in *. cbn [listing] in *.
  set (d := write_files (written (model_save L m)) (listing (after_mkdir n)))
    in *.
  inversion Hren as [ Hyes | Hno Hglob | f1 rest data Hno Hglob Hf1 | ];
    subst; cbn [listing glob_onnx] in *.
  - rewrite Hmissing in Hyes. by destruct Hyes.
  - rewrite Hglob in Hhead. discriminate Hhead.
  - rewrite Hglob in Hhead. injection Hhead as ->.
    split; [by eexists |]. split; [| done].
    rewrite write_files_other by done.
    by rewrite lookup_insert_eq.
Qed.

Lemma renamed_model_is_first_match_witness :
  (run hub_split Absent).1 = Ok tt
  ∧ listing (models (run hub_split Absent).2) !! "model.onnx" = Some "A".
Proof.
  split; [reflexivity |].
  destruct (renamed_model_is_first_match hub_split Absent tt tt "a.onnx")
    as (_ & Hcontent & _).
  - reflexivity.
  - reflexivity.
  - reflexivity.
  - reflexivity.
  - reflexivity.
  - apply (bool_decide_unpack _). by vm_compute.
  - exact (eq_trans Hcontent eq_refl).
Defined.

(** ** Running the script twice *)

(** X10: the script is not idempotent when the model save stores the
    export under a name [f] other than [model.onnx].  After a first run
    that returned and renamed [f], a second run over the directory it left
    (same library answers) returns too, renames nothing, and leaves both
    [f], written anew, and the [model.onnx] of the first run in the
    directory. *)
Theorem second_run_leaves_two_onnx_files
    (L : library) (n : node) (m : model L) (f : string) :
  (run L n).1 = Ok tt →
  model_from_pretrained L MODEL_NAME true = inr m →
  let saved_dir := listing (save_into (model_save L m) (after_mkdir n)) in
  saved_dir !! "model.onnx" = None →
  head (onnx_matches L saved_dir) = Some f →
  f ∈ (written (model_save L m)).*1 →
  let again := run L (models (run L n).2) in
  again.1 = Ok tt
  ∧ f ≠ "model.onnx"
  ∧ is_Some (listing (models again.2) !! f)
  ∧ is_Some (listing (models again.2) !! "model.onnx")
  ∧ Forall (λ c, is_rename c = false) (trace again.2).
Proof.
  intros Hok Hm saved_dir Hmissing Hhead Hf again.
  destruct (run_ok_inv L n Hok)
    as (m0 & t & n3 & cs & Hreg & Hm0 & Ht & Hsave & Hren & Htsave & Hfinal).
  assert (m0 = m) as -> by congruence.
  subst again. rewrite Hfinal. clear Hfinal.
  assert (Hfirst : f ≠ "model.onnx"
                   ∧ is_Some (listing n3 !! "model.onnx")).
  { subst saved_dir. unfold save_into in *. cbn [listing] in *.
    inversion Hren as [ Hyes | Hno Hglob | f1 rest data Hno Hglob Hf1 | ];
      subst; cbn [listing glob_onnx] in *.
    - rewrite Hmissing in Hyes. by destruct Hyes.
    - rewrite Hglob in Hhead. discriminate Hhead.
    - rewrite Hglob in Hhead. injection Hhead as ->.
      split; [congruence |]. rewrite lookup_insert_eq. by eexists. }
  destruct Hfirst as [Hne Hnamed]. clear Hren Hmissing Hhead saved_dir.
  set (n1 := save_into (tokenizer_save L t) n3).
  assert (Hn1 : is_Some (listing n1 !! "model.onnx"))
    by by apply save_into_keeps.
  assert (Hkept : is_Some
            (listing (save_into (model_save L m) (after_mkdir n1))
               !! "model.onnx"))
    by (apply save_into_keeps; by rewrite listing_after_mkdir).
  assert (Hnew : is_Some
            (listing (save_into (model_save L m) (after_mkdir n1)) !! f))
    by (cbn; by apply write_files_written).
  destruct (run_spec L n1) as (r & n' & l & Hout & ->).
  unfold trace. cbn [fst snd models calls].
  destruct Hout as [ Hreg1 | | | | m1 ? ? ? ? ? Hm1 ? ? Hren
                     | m1 ? ? ? ? ? Hm1 ? ? Hren
                     | m1 t1 n4 cs1 ? Hm1 ? ? Hren ];
    try discriminate Hreg1; try congruence.
  - assert (m1 = m) as -> by congruence.
    by destruct (rename_outcome_named _ _ _ _ _ Hren Hkept) as (_ & _ & ?).
  - assert (m1 = m) as -> by congruence.
    destruct (rename_outcome_named _ _ _ _ _ Hren Hkept) as (-> & -> & _).
    split; [done |]. split; [done |].
    split; [by apply save_into_keeps |].
    split; [by apply save_into_keeps |].
    cbn. by repeat constructor.
Qed.

Lemma second_run_leaves_two_onnx_files_witness :
  (run hub_renamed Absent).1 = Ok tt
  ∧ (run hub_renamed (models (run hub_renamed Absent).2)).1 = Ok tt
  ∧ is_Some
      (listing (models (run hub_renamed (models (run hub_renamed Absent).2)).2)
         !! "exported.onnx")
  ∧ is_Some
      (listing (models (run hub_renamed (models (run hub_renamed Absent).2)).2)
         !! "model.onnx").
Proof.
  split; [reflexivity |].
  destruct (second_run_leaves_two_onnx_files hub_renamed Absent tt
              "exported.onnx")
    as (Hok & _ & Hf & Hmodel & _).
  - reflexivity.
  - reflexivity.
  - reflexivity.
  - reflexivity.
  - apply (bool_decide_unpack _). by vm_compute.
  - split; [exact Hok |]. split; [exact Hf | exact Hmodel].
Defined.

(** ** When the run does leave exactly one model file *)

Lemma write_files_is_Some (fs : list (string * blob)) (d : gmap string blob)
    (k : string) :
  is_Some (write_files fs d !! k) → k ∈ fs.*1 ∨ is_Some (d !! k).
Proof.
  intros Hk. destruct (decide (k ∈ fs.*1)) as [Hin | Hout]; [by left |].
  right. by rewrite write_files_other in Hk.
Qed.

(** X11: if the output directory held no [*.onnx] entry before the run, the
    model save writes exactly one file [f] with an [*.onnx] name (under any
    name) and the tokenizer save writes none, then after a run that returns
    [model.onnx] is the one and only [*.onnx] entry of the directory. *)
Theorem single_export_gives_one_model
    (L : library) (n : node) (m : model L) (t : tokenizer L) (f : string) :
  scandir_ok L →
  (run L n).1 = Ok tt →
  model_from_pretrained L MODEL_NAME true = inr m →
  tokenizer_from_pretrained L MODEL_NAME = inr t →
  (∀ name : string,
     fnmatch "*.onnx" name = true → listing n !! name = None) →
  f ∈ (written (model_save L m)).*1 →
  fnmatch "*.onnx" f = true →
  (∀ name : string,
     name ∈ (written (model_save L m)).*1 →
     fnmatch "*.onnx" name = true → name = f) →
  (∀ name : string,
     name ∈ (written (tokenizer_save L t)).*1 →
     fnmatch "*.onnx" name = false) →
  only_model_onnx (listing (models (run L n).2)).
Proof.
  intros Hscan Hok Hm Ht Hclean Hf Hfonnx Hone Htok.
  destruct (run_ok_inv L n Hok)
    as (m0 & t0 & n3 & cs & Hreg & Hm0 & Ht0 & Hsave & Hren & Htsave & ->).
  assert (m0 = m) as -> by congruence.
  assert (t0 = t) as -> by congruence.
  unfold save_into in *. cbn [listing] in *.
  rewrite listing_after_mkdir in Hren.
  set (d := write_files (written (model_save L m)) (listing n)) in *.
  assert (Hd : ∀ name, fnmatch "*.onnx" name = true →
                       is_Some (d !! name) → name = f).
  { intros name Honnx [Hin | Hold]%write_files_is_Some; [by apply Hone |].
    rewrite (Hclean name Honnx) in Hold. by destruct Hold. }
  assert (Hdf : is_Some (d !! f)) by by apply write_files_written.
  assert (Hfinal : ∀ d3 : gmap string blob,
            is_Some (d3 !! "model.onnx") →
            (∀ name, fnmatch "*.onnx" name = true → is_Some (d3 !! name) →
                     name = "model.onnx") →
            only_model_onnx (write_files (written (tokenizer_save L t)) d3)).
  { intros d3 Hnamed Honly. split; [by apply write_files_keeps |].
    intros name Honnx [Hin | Hold]%write_files_is_Some; [| by apply Honly].
    rewrite (Htok name Hin) in Honnx. discriminate Honnx. }
  inversion Hren as [ Hyes | Hno Hglob | f1 rest data Hno Hglob Hf1 | ];
    subst; cbn [listing glob_onnx] in *.
  - apply Hfinal; [done |].
    intros name Honnx Hname.
    rewrite (Hd name Honnx Hname). symmetry. by apply Hd.
  - exfalso.
    assert (Hin : f ∈ onnx_matches L d) by by apply onnx_matches_elem.
    rewrite Hglob in Hin. by apply not_elem_of_nil in Hin.
  - apply Hfinal; [rewrite lookup_insert_eq; by eexists |].
    assert (Hin : f1 ∈ onnx_matches L d) by (rewrite Hglob; left).
    apply (onnx_matches_elem L d f1 Hscan) in Hin as [Honnx1 Hsome1].
    assert (f1 = f) as -> by by apply Hd.
    intros name Honnx Hname.
    apply lookup_insert_is_Some in Hname as [? | [Hne Hname]]; [done |].
    destruct (decide (name = f)) as [-> | Hnf].
    + rewrite lookup_delete_eq in Hname. by destruct Hname.
    + rewrite lookup_delete_ne in Hname by done.
      by specialize (Hd name Honnx Hname).
Qed.

Lemma single_export_gives_one_model_witness :
  (run hub_renamed Absent).1 = Ok tt
  ∧ only_model_onnx (listing (models (run hub_renamed Absent).2)).
Proof.
  split; [reflexivity |].
  apply (single_export_gives_one_model hub_renamed Absent tt tt
           "exported.onnx").
  - intros d n. apply listdir_ok.
  - reflexivity.
  - reflexivity.
  - reflexivity.
  - intros name _. apply lookup_empty.
  - apply (bool_decide_unpack _). by vm_compute.
  - reflexivity.
  - intros name Hin Honnx.
    apply elem_of_cons in Hin as [-> | Hin]; [discriminate Honnx |].
    apply list_elem_of_singleton in Hin. exact Hin.
  - intros name Hin.
    apply elem_of_cons in Hin as [-> | Hin]; [reflexivity |].
    apply list_elem_of_singleton in Hin as ->. reflexivity.
Defined.

Lemma run_renames_only_onnx_witness :
  Rename (joinpath OUTPUT_DIR "a.onnx") (joinpath OUTPUT_DIR "model.onnx")
    ∈ trace (run hub_split Absent).2
  ∧ ∃ stem : string,
      joinpath OUTPUT_DIR "a.onnx" = joinpath OUTPUT_DIR (stem +:+ ".onnx").
Proof.
  assert (Hin : Rename (joinpath OUTPUT_DIR "a.onnx")
                  (joinpath OUTPUT_DIR "model.onnx")
                  ∈ trace (run hub_split Absent).2).
  { apply (bool_decide_unpack _). by vm_compute. }
  split; [exact Hin |].
  exact (proj2 (run_renames_only_onnx hub_split Absent _ _ Hin)).
Defined.
